(** * Fitness tracker: the view logic of Goals, WorkoutForm and Dashboard

    A shallow embedding of the client-side computations of the React views
    ([src/components/Goals.tsx], [WorkoutForm], [src/components/Dashboard.tsx])
    together with the properties the specification states about them.

    Layout: the embedding comes first (modules [Js], [Goals], [Proc],
    [Store], [WorkoutForm], [Date], [Dashboard], [GoalsView], [Workouts],
    [Profile] and the sample data of [Sample]), the theorems follow, one
    section per view. *)

From Stdlib Require Import ZArith Bool Lia String Ascii List.
From Stdlib Require Import Floats.SpecFloat.
Import ListNotations.

Local Open Scope string_scope.
Local Open Scope list_scope.
Local Open Scope Z_scope.

(* ================================================================== *)
(** * JavaScript values used by the views *)
(* ================================================================== *)

Module Js.

(** A JavaScript [number] is an IEEE 754 binary64 value.  [spec_float] is
    the Standard Library's inductive description of such values; its
    operations round to nearest, ties to even, as ECMAScript prescribes. *)
Definition number := spec_float.

Definition prec : Z := 53.
Definition emax : Z := 1024.

Definition NegInfinity : number := S754_infinity true.
Definition pos_zero : number := S754_zero false.
Definition neg_zero : number := S754_zero true.

(** Integer literals of the source ([100], [10], [0], ...). *)
Definition lit (n : Z) : number := binary_normalize prec emax n 0 false.

(** Decimal data such as [22.5] or [0.1]: the binary64 nearest to [n / d]. *)
Definition div (x y : number) : number := SFdiv prec emax x y.
Definition mul (x y : number) : number := SFmul prec emax x y.
Definition ratio (n d : Z) : number := div (lit n) (lit d).

(** [x < y]; every comparison with [NaN] is false. *)
Definition lt (x y : number) : bool := SFltb x y.

(** [ToBoolean] on numbers: [+0], [-0] and [NaN] are falsy. *)
Definition truthy (x : number) : bool :=
  match x with
  | S754_zero _ | S754_nan => false
  | _ => true
  end.

(** [Math.min(x, y)]: [NaN] if either argument is [NaN]; [-0] counts as
    smaller than [+0]. *)
Definition Math_min (x y : number) : number :=
  match x, y with
  | S754_nan, _ | _, S754_nan => S754_nan
  | S754_zero sx, S754_zero sy => S754_zero (sx || sy)
  | _, _ => if SFltb y x then y else x
  end.

(** [Math.max(x, y)]: [NaN] if either argument is [NaN]; [+0] counts as
    larger than [-0]. *)
Definition Math_max (x y : number) : number :=
  match x, y with
  | S754_nan, _ | _, S754_nan => S754_nan
  | S754_zero sx, S754_zero sy => S754_zero (sx && sy)
  | _, _ => if SFltb x y then y else x
  end.

(** A JavaScript array of numbers.  [None] stands for a hole (an index
    below [length] that was never written) or a [null] element; both are
    falsy and read as "no number". *)
Definition jsarray := list (option number).

(** The sign bit of a number; [NaN] has none that matters. *)
Definition is_negative (x : number) : bool :=
  match x with
  | S754_zero s | S754_infinity s | S754_finite s _ _ => s
  | S754_nan => false
  end.

Definition is_zero (x : number) : bool :=
  match x with S754_zero _ => true | _ => false end.

End Js.

(* ================================================================== *)
(** * Goals view *)
(* ================================================================== *)

Module Goals.
Import Js.

(** [interface Goal]; only the numeric fields and the flag matter to the
    computations below. *)
Record Goal := mkGoal {
  target_value : number;
  current_value : number;
  achieved : bool
}.

(** [const getProgress = (goal) =>
      Math.min((goal.current_value / goal.target_value) * 100, 100)] *)
Definition getProgress (goal : Goal) : number :=
  Math_min (mul (div (current_value goal) (target_value goal)) (lit 100)) (lit 100).

(** The specification's wording of the same quantity:
    [clamp(current/target*100, 0, 100)], with [clamp(x, lo, hi)] the usual
    [max(lo, min(x, hi))]. *)
Definition clamp (x lo hi : number) : number := Math_max lo (Math_min x hi).

Definition percentage (goal : Goal) : number :=
  mul (div (current_value goal) (target_value goal)) (lit 100).

Definition spec_progress (goal : Goal) : number :=
  clamp (percentage goal) (lit 0) (lit 100).

Definition goal_of (current target : number) : Goal :=
  mkGoal target current false.

End Goals.

(* ================================================================== *)
(** * Handlers that talk to the backing store *)
(* ================================================================== *)

(** An [async] handler is a finite tree: it performs an effect on the view
    ([Emit]), or sends a request to the store and continues with the reply
    ([Await]).  The handlers below contain no loops, so an inductive tree
    is enough. *)
Module Proc.
Section Def.
Variables E Q R : Type.

Inductive proc : Type :=
| Done : proc
| Emit : E -> proc -> proc
| Await : Q -> (R -> proc) -> proc.

(** What an observer of one run sees, in order. *)
Inductive event : Type :=
| Did : E -> event
| Sent : Q -> R -> event.

(** Running a handler against a store [serve] with state [S]. *)
Fixpoint run {S : Type} (serve : Q -> S -> R * S) (p : proc) (s : S)
  : list event * S :=
  match p with
  | Done => ([], s)
  | Emit e k => let '(tr, s') := run serve k s in (Did e :: tr, s')
  | Await q k =>
      let '(r, s1) := serve q s in
      let '(tr, s2) := run serve (k r) s1 in
      (Sent q r :: tr, s2)
  end.

Fixpoint requests (tr : list event) : list Q :=
  match tr with
  | [] => []
  | Did _ :: tr' => requests tr'
  | Sent q _ :: tr' => q :: requests tr'
  end.

Fixpoint effects (tr : list event) : list E :=
  match tr with
  | [] => []
  | Did e :: tr' => e :: effects tr'
  | Sent _ _ :: tr' => effects tr'
  end.
End Def.

Arguments Done {E Q R}.
Arguments Emit {E Q R} _ _.
Arguments Await {E Q R} _ _.
Arguments Did {E Q R} _.
Arguments Sent {E Q R} _ _.
Arguments run {E Q R S} serve p s.
Arguments requests {E Q R} tr.
Arguments effects {E Q R} tr.
End Proc.

(* ================================================================== *)
(** * The backing store, as far as the workout form writes to it *)
(* ================================================================== *)

(** Tables [workouts] and [workout_exercises] of the migration, the four
    writes [handleSave] issues, and what each does to the tables.  A
    request the service rejects (network, policy, constraint) answers with
    an error and changes nothing. *)
Module Store.
Import Js.

Definition uuid := string.

(** The columns the form sends for a workout. *)
Record workout_fields := mkFields {
  name : string;
  date : string;
  duration_minutes : Z;
  notes : string
}.

Record workout_row := mkWorkout {
  id : uuid;
  user_id : uuid;
  fields : workout_fields
}.

Record workout_exercise_row := mkRow {
  workout_id : uuid;
  exercise_id : uuid;
  sets : Z;
  reps : jsarray;
  weight : jsarray;
  rest_seconds : Z;
  we_notes : string
}.

Record db := mkDb {
  workouts : list workout_row;
  workout_exercises : list workout_exercise_row
}.

Inductive request :=
| UpdateWorkout (workout : uuid) (f : workout_fields)
| DeleteWorkoutExercises (workout : uuid)
| InsertWorkout (user : uuid) (f : workout_fields)
| InsertWorkoutExercises (rows : list workout_exercise_row).

(** The [{ data, error }] pair every call resolves to. *)
Record response := mkResponse {
  data : option workout_row;
  error : option string
}.

Definition ok : response := mkResponse None None.
Definition failed (msg : string) : response := mkResponse None (Some msg).

Definition rows_of (w : uuid) (d : db) : list workout_exercise_row :=
  filter (fun r => String.eqb (workout_id r) w) (workout_exercises d).

Definition apply (gen_random_uuid : db -> uuid) (q : request) (d : db)
  : response * db :=
  match q with
  | UpdateWorkout w f =>
      (ok, mkDb (map (fun r => if String.eqb (id r) w
                               then mkWorkout (id r) (user_id r) f else r)
                     (workouts d))
                (workout_exercises d))
  | DeleteWorkoutExercises w =>
      (ok, mkDb (workouts d)
                (filter (fun r => negb (String.eqb (workout_id r) w))
                        (workout_exercises d)))
  | InsertWorkout u f =>
      let row := mkWorkout (gen_random_uuid d) u f in
      (mkResponse (Some row) None, mkDb (workouts d ++ [row]) (workout_exercises d))
  | InsertWorkoutExercises rows =>
      (ok, mkDb (workouts d) (workout_exercises d ++ rows))
  end.

(** [rejects] says which requests the service turns down. *)
Definition serve (rejects : request -> bool) (gen_random_uuid : db -> uuid)
           (q : request) (d : db) : response * db :=
  if rejects q then (failed "rejected", d) else apply gen_random_uuid q d.

End Store.

(* ================================================================== *)
(** * WorkoutForm *)
(* ================================================================== *)

Module WorkoutForm.
Import Js Proc.
Import Store (uuid).

(** [interface Exercise] *)
Record Exercise := mkExercise {
  id : uuid;
  name : string;
  category : string;
  muscle_groups : list string
}.

(** [interface WorkoutExercise].  [sets] is a counter moved by one per
    click; integers of that size are exact in binary64, so it is kept as
    an integer. *)
Record WorkoutExercise := mkWorkoutExercise {
  we_id : option uuid;
  exercise_id : uuid;
  exercise_name : string;
  sets : Z;
  reps : jsarray;
  weight : jsarray;
  rest_seconds : Z;
  notes : string
}.

(** ** Array primitives *)

(** [arr[i]] *)
Definition get (arr : jsarray) (i : nat) : option number :=
  match nth_error arr i with
  | Some v => v
  | None => None
  end.

(** [arr[arr.length - 1]]; on the empty array this reads the property
    ["-1"], which is [undefined]. *)
Definition last_elem (arr : jsarray) : option number :=
  match length arr with
  | O => None
  | S n => get arr n
  end.

Fixpoint replace_at (arr : jsarray) (i : nat) (v : number) : jsarray :=
  match arr, i with
  | [], _ => []
  | _ :: tl, O => Some v :: tl
  | hd :: tl, S i' => hd :: replace_at tl i' v
  end.

(** [arr[i] = v]: an index at or beyond [length] extends the array,
    leaving holes in between. *)
Definition set_index (arr : jsarray) (i : nat) (v : number) : jsarray :=
  if Nat.ltb i (length arr) then replace_at arr i v
  else arr ++ repeat None (i - length arr) ++ [Some v].

(** [arr.push(v)] and [arr.pop()] (the popped value is not used). *)
Definition push (arr : jsarray) (v : number) : jsarray := arr ++ [Some v].
Definition pop (arr : jsarray) : jsarray := removelast arr.

(** [v || d] where [v] is a number or [undefined]. *)
Definition or_default (v : option number) (d : number) : number :=
  match v with
  | Some x => if truthy x then x else d
  | None => d
  end.

(** ** Component state *)

(** The [useState] cells of the component. *)
Record form := mkForm {
  f_name : string;
  f_date : string;
  durationMinutes : Z;
  f_notes : string;
  exercises : list Exercise;
  workoutExercises : list WorkoutExercise;
  showExerciseSelector : bool;
  searchTerm : string;
  loading : bool
}.

Definition setWorkoutExercises (ws : list WorkoutExercise) (st : form) : form :=
  mkForm (f_name st) (f_date st) (durationMinutes st) (f_notes st)
         (exercises st) ws (showExerciseSelector st) (searchTerm st) (loading st).

Definition setShowExerciseSelector (b : bool) (st : form) : form :=
  mkForm (f_name st) (f_date st) (durationMinutes st) (f_notes st)
         (exercises st) (workoutExercises st) b (searchTerm st) (loading st).

Definition setSearchTerm (s : string) (st : form) : form :=
  mkForm (f_name st) (f_date st) (durationMinutes st) (f_notes st)
         (exercises st) (workoutExercises st) (showExerciseSelector st) s (loading st).

(** The form of a new workout, before anything is picked; [today] is the
    ISO date the component reads from the clock. *)
Definition empty_form (today : string) : form :=
  mkForm EmptyString today 0 EmptyString [] [] false EmptyString false.

(** ** Editing the list of workout exercises *)

Definition newWorkoutExercise (exercise : Exercise) : WorkoutExercise :=
  mkWorkoutExercise None (id exercise) (name exercise) 3
    [Some (lit 10); Some (lit 10); Some (lit 10)]
    [Some (lit 0); Some (lit 0); Some (lit 0)]
    60 EmptyString.

Definition addExercise (exercise : Exercise) (st : form) : form :=
  setSearchTerm EmptyString
    (setShowExerciseSelector false
       (setWorkoutExercises
          (workoutExercises st ++ [newWorkoutExercise exercise]) st)).

(** [updated[i] = e] on the copied list, for an [i] that is in range. *)
Fixpoint put (ws : list WorkoutExercise) (i : nat) (e : WorkoutExercise)
  : list WorkoutExercise :=
  match ws, i with
  | [], _ => []
  | _ :: tl, O => e :: tl
  | hd :: tl, S i' => hd :: put tl i' e
  end.

Inductive field := Reps | Weight.

Definition with_reps (e : WorkoutExercise) (r : jsarray) : WorkoutExercise :=
  mkWorkoutExercise (we_id e) (exercise_id e) (exercise_name e) (sets e)
                    r (weight e) (rest_seconds e) (notes e).

Definition with_weight (e : WorkoutExercise) (w : jsarray) : WorkoutExercise :=
  mkWorkoutExercise (we_id e) (exercise_id e) (exercise_name e) (sets e)
                    (reps e) w (rest_seconds e) (notes e).

(** The three handlers below mutate the entry object found at
    [exerciseIndex] and then store the copied list.  Every entry object
    and each of its arrays is created by a literal of its own
    ([addExercise]) or by a spread copy ([updateSetData]), so no two
    entries share an object and the mutation is the replacement of that
    one entry.  When [exerciseIndex] is out of range the entry is
    [undefined], the first property access throws a [TypeError] before
    anything is written, and the state is left as it was: the result is
    [None]. *)

Definition updateSetData (exerciseIndex setIndex : nat) (f : field)
           (value : number) (ws : list WorkoutExercise)
  : option (list WorkoutExercise) :=
  match nth_error ws exerciseIndex with
  | None => None
  | Some exercise =>
      match f with
      | Reps =>
          let newReps := set_index (reps exercise) setIndex value in
          Some (put ws exerciseIndex (with_reps exercise newReps))
      | Weight =>
          let newWeight := set_index (weight exercise) setIndex value in
          Some (put ws exerciseIndex (with_weight exercise newWeight))
      end
  end.

Definition addSet_entry (exercise : WorkoutExercise) : WorkoutExercise :=
  mkWorkoutExercise (we_id exercise) (exercise_id exercise)
    (exercise_name exercise)
    (sets exercise + 1)
    (push (reps exercise) (or_default (last_elem (reps exercise)) (lit 10)))
    (push (weight exercise) (or_default (last_elem (weight exercise)) (lit 0)))
    (rest_seconds exercise) (notes exercise).

Definition addSet (exerciseIndex : nat) (ws : list WorkoutExercise)
  : option (list WorkoutExercise) :=
  match nth_error ws exerciseIndex with
  | None => None
  | Some exercise => Some (put ws exerciseIndex (addSet_entry exercise))
  end.

Definition removeSet_entry (exercise : WorkoutExercise) : WorkoutExercise :=
  mkWorkoutExercise (we_id exercise) (exercise_id exercise)
    (exercise_name exercise)
    (sets exercise - 1)
    (pop (reps exercise))
    (pop (weight exercise))
    (rest_seconds exercise) (notes exercise).

Definition removeSet (exerciseIndex : nat) (ws : list WorkoutExercise)
  : option (list WorkoutExercise) :=
  match nth_error ws exerciseIndex with
  | None => None
  | Some exercise =>
      if 1 <? sets exercise
      then Some (put ws exerciseIndex (removeSet_entry exercise))
      else Some ws
  end.

(** ** The form as a state machine *)

Inductive action :=
| AddExercise (exercise : Exercise)
| AddSet (exerciseIndex : nat)
| RemoveSet (exerciseIndex : nat)
| UpdateSetData (exerciseIndex setIndex : nat) (f : field) (value : number).

(** A handler that throws leaves the state unchanged. *)
Definition commit (r : option (list WorkoutExercise)) (st : form) : form :=
  match r with
  | Some ws => setWorkoutExercises ws st
  | None => st
  end.

Definition step (a : action) (st : form) : form :=
  match a with
  | AddExercise exercise => addExercise exercise st
  | AddSet i => commit (addSet i (workoutExercises st)) st
  | RemoveSet i => commit (removeSet i (workoutExercises st)) st
  | UpdateSetData i j f v => commit (updateSetData i j f v (workoutExercises st)) st
  end.

(** The one argument the handlers do not check themselves is the
    [setIndex] of [updateSetData].  The component renders the reps and
    weight inputs of an entry from
    [Array.from({ length: workoutExercise.sets })], so an update always
    addresses a set the entry has.  Exercise indices need no condition: out
    of range the handler throws and nothing changes. *)
Definition within_sets (st : form) (a : action) : Prop :=
  match a with
  | UpdateSetData i j _ _ =>
      forall e, nth_error (workoutExercises st) i = Some e -> Z.of_nat j < sets e
  | _ => True
  end.

Inductive reachable (today : string) : form -> Prop :=
| reach_empty : reachable today (empty_form today)
| reach_step : forall st a,
    reachable today st -> within_sets st a -> reachable today (step a st).

(** The property the parallel arrays are meant to keep. *)
Definition well_formed (e : WorkoutExercise) : Prop :=
  Z.of_nat (length (reps e)) = sets e /\
  Z.of_nat (length (weight e)) = sets e /\
  1 <= sets e.

(** ** The exercise picker *)

Fixpoint startsWith (s p : string) : bool :=
  match p, s with
  | EmptyString, _ => true
  | String _ _, EmptyString => false
  | String b p', String a s' => Ascii.eqb a b && startsWith s' p'
  end.

(** [s.includes(search)] *)
Fixpoint includes (s search : string) : bool :=
  startsWith s search ||
  match s with
  | EmptyString => false
  | String _ s' => includes s' search
  end.

(** The specification's wording: [t] occurs in [s] as a substring. *)
Definition contains (s t : string) : Prop :=
  exists pre post, s = (pre ++ t ++ post)%string.

Section Picker.
(** [String.prototype.toLowerCase] of the host. *)
Variable toLowerCase : string -> string.

Definition matches (term : string) (exercise : Exercise) : bool :=
  includes (toLowerCase (name exercise)) (toLowerCase term) ||
  includes (toLowerCase (category exercise)) (toLowerCase term).

Definition filteredExercises (st : form) : list Exercise :=
  filter (matches (searchTerm st)) (exercises st).
End Picker.

(** Lower-casing of the ASCII letters, the instance used in examples. *)
Definition ascii_lower (c : ascii) : ascii :=
  let n := nat_of_ascii c in
  if (Nat.leb 65 n && Nat.leb n 90)%bool then ascii_of_nat (n + 32) else c.

Fixpoint ascii_toLowerCase (s : string) : string :=
  match s with
  | EmptyString => EmptyString
  | String c s' => String (ascii_lower c) (ascii_toLowerCase s')
  end.

(** ** Saving *)

(** The white space of the ASCII range: tab, line feed, vertical tab, form
    feed, carriage return and space. *)
Definition is_whitespace (c : ascii) : bool :=
  let n := nat_of_ascii c in
  (Nat.leb 9 n && Nat.leb n 13)%bool || Nat.eqb n 32.

Fixpoint trimStart (s : string) : string :=
  match s with
  | EmptyString => EmptyString
  | String c s' => if is_whitespace c then trimStart s' else s
  end.

Fixpoint reverse_onto (s acc : string) : string :=
  match s with
  | EmptyString => acc
  | String c s' => reverse_onto s' (String c acc)
  end.

Definition reverse (s : string) : string := reverse_onto s EmptyString.

(** [s.trim()] *)
Definition trim (s : string) : string :=
  reverse (trimStart (reverse (trimStart s))).

Definition is_empty (s : string) : bool :=
  match s with EmptyString => true | _ => false end.

(** What the handler does to the page besides talking to the store. *)
Inductive ui :=
| Alert (msg : string)
| SetLoading (b : bool)
| OnSave
| ConsoleError (msg : string).

Definition handler := proc ui Store.request Store.response.

Definition finally_ : handler := Emit (SetLoading false) Done.

Definition catch_ (error : string) : handler :=
  Emit (ConsoleError "Error saving workout:")
    (Emit (Alert "Error saving workout. Please try again.") finally_).

Definition fields_of (st : form) : Store.workout_fields :=
  Store.mkFields (f_name st) (f_date st) (durationMinutes st) (f_notes st).

Definition exerciseInserts (workoutId : uuid) (ws : list WorkoutExercise)
  : list Store.workout_exercise_row :=
  map (fun we => Store.mkRow workoutId (exercise_id we) (sets we) (reps we)
                             (weight we) (rest_seconds we) (notes we)) ws.

(** The tail of [handleSave], from [// Insert workout exercises] on. *)
Definition insert_exercises (workoutId : uuid) (st : form) : handler :=
  if Nat.ltb 0 (length (workoutExercises st)) then
    Await (Store.InsertWorkoutExercises
             (exerciseInserts workoutId (workoutExercises st)))
          (fun r =>
             match Store.error r with
             | Some exerciseError => catch_ exerciseError
             | None => Emit OnSave finally_
             end)
  else Emit OnSave finally_.

(** [handleSave]; [workout] is the prop of edit mode, [user] the id of
    the signed-in user. *)
Definition handleSave (workout : option Store.workout_row) (user : uuid)
           (st : form) : handler :=
  if is_empty (trim (f_name st)) then
    Emit (Alert "Please enter a workout name") Done
  else
    Emit (SetLoading true)
      match workout with
      | Some w =>
          Await (Store.UpdateWorkout (Store.id w) (fields_of st))
            (fun r =>
               match Store.error r with
               | Some updateError => catch_ updateError
               | None =>
                   Await (Store.DeleteWorkoutExercises (Store.id w))
                     (fun r =>
                        match Store.error r with
                        | Some deleteError => catch_ deleteError
                        | None => insert_exercises (Store.id w) st
                        end)
               end)
      | None =>
          Await (Store.InsertWorkout user (fields_of st))
            (fun r =>
               match Store.error r with
               | Some createError => catch_ createError
               | None =>
                   match Store.data r with
                   | Some newWorkout => insert_exercises (Store.id newWorkout) st
                   | None => catch_ "TypeError"
                   end
               end)
      end.

(** ** More of the form: removing an exercise, validation, outcomes *)

(** [workoutExercises.filter((_, i) => i !== index)]; [k] is the index of
    the head of [ws] in the whole list. *)
Fixpoint filter_index (k index : nat) (ws : list WorkoutExercise)
  : list WorkoutExercise :=
  match ws with
  | [] => []
  | e :: tl =>
      if negb (Nat.eqb k index) then e :: filter_index (S k) index tl
      else filter_index (S k) index tl
  end.

Definition removeExercise (index : nat) (ws : list WorkoutExercise)
  : list WorkoutExercise := filter_index 0 index ws.

(** The array a [field] names, and the other one. *)
Definition array_of (f : field) (e : WorkoutExercise) : jsarray :=
  match f with Reps => reps e | Weight => weight e end.

Definition other (f : field) : field :=
  match f with Reps => Weight | Weight => Reps end.

(** A name made of white space only. *)
Fixpoint all_whitespace (s : string) : bool :=
  match s with
  | EmptyString => true
  | String c s' => is_whitespace c && all_whitespace s'
  end.

(** What a failed save shows, after the request that failed. *)
Definition failure_tail : list (event ui Store.request Store.response) :=
  [Did (ConsoleError "Error saving workout:");
   Did (Alert "Error saving workout. Please try again.");
   Did (SetLoading false)].

Definition success_tail : list (event ui Store.request Store.response) :=
  [Did OnSave; Did (SetLoading false)].

(** The store after a request was carried out. *)
Definition after (gen : Store.db -> Store.uuid) (q : Store.request) (d : Store.db)
  : Store.db := snd (Store.apply gen q d).

(** ** Opening a stored workout *)

(** A row of [workout_exercises] as [select('*, exercises(name)')] returns
    it; [fe_exercises] is the joined [exercises?.name]. *)
Record FetchedExercise := mkFetchedExercise {
  fe_id : Store.uuid;
  fe_exercise_id : Store.uuid;
  fe_exercises : option string;
  fe_sets : Z;
  fe_reps : option jsarray;
  fe_weight : option jsarray;
  fe_rest_seconds : Z;
  fe_notes : option string
}.

(** [s || ''] and [a || []]. *)
Definition or_empty (s : option string) : string :=
  match s with Some (String c r) => String c r | _ => EmptyString end.

Definition or_no_sets (a : option jsarray) : jsarray :=
  match a with Some a => a | None => [] end.

Definition formattedExercises (data : option (list FetchedExercise))
  : list WorkoutExercise :=
  match data with
  | Some l =>
      map (fun we =>
             mkWorkoutExercise (Some (fe_id we)) (fe_exercise_id we)
               (or_empty (fe_exercises we)) (fe_sets we)
               (or_no_sets (fe_reps we)) (or_no_sets (fe_weight we))
               (fe_rest_seconds we) (or_empty (fe_notes we))) l
  | None => []
  end.

Record exercises_response := mkExercisesResponse {
  ex_data : option (list FetchedExercise);
  ex_error : option string
}.

Inductive load_effect :=
| Loaded (l : list WorkoutExercise)
| LoadFailed (msg : string).

(** [loadWorkoutExercises]; the one request is the select of the rows of
    the workout. *)
Definition loadWorkoutExercises (workout : option Store.workout_row)
  : proc load_effect Store.uuid exercises_response :=
  match workout with
  | None => Done
  | Some w =>
      Await (Store.id w) (fun r =>
        match ex_error r with
        | Some e => Emit (LoadFailed "Error loading workout exercises:") Done
        | None => Emit (Loaded (formattedExercises (ex_data r))) Done
        end)
  end.

(** The select on the store: the rows of the workout in table order, each
    with its id and the name of its exercise in the catalog. *)
Definition select_exercises (row_id : Store.workout_exercise_row -> Store.uuid)
           (name_of : Store.uuid -> option string) (w : Store.uuid) (d : Store.db)
  : exercises_response * Store.db :=
  (mkExercisesResponse
     (Some (map (fun r =>
                   mkFetchedExercise (row_id r) (Store.exercise_id r)
                     (name_of (Store.exercise_id r)) (Store.sets r)
                     (Some (Store.reps r)) (Some (Store.weight r))
                     (Store.rest_seconds r) (Some (Store.we_notes r)))
                (Store.rows_of w d)))
     None,
   d).

(** Two entries with the same exercise, sets, arrays, rest and notes. *)
Definition same_sets (a b : WorkoutExercise) : Prop :=
  exercise_id a = exercise_id b /\ sets a = sets b /\ reps a = reps b /\
  weight a = weight b /\ rest_seconds a = rest_seconds b /\ notes a = notes b.

End WorkoutForm.

(* ================================================================== *)
(** * Dates *)
(* ================================================================== *)

(** The part of ECMAScript's [Date] the dashboard uses.  A time value is a
    number of milliseconds since 1970-01-01T00:00:00Z; the values that
    occur are integers far inside the exact range of binary64 and of
    [TimeClip], so they are kept as integers. *)
Module Date.

Definition msPerDay : Z := 86400000.

Definition Day (t : Z) : Z := t / msPerDay.
Definition TimeWithinDay (t : Z) : Z := t mod msPerDay.
Definition MakeDate (day time : Z) : Z := day * msPerDay + time.

(** Day number of a date of the proleptic Gregorian calendar
    ([m] in 1..12) and back. *)
Definition days_from_civil (y m d : Z) : Z :=
  let y := if m <=? 2 then y - 1 else y in
  let era := y / 400 in
  let yoe := y mod 400 in
  let doy := (153 * (if 2 <? m then m - 3 else m + 9) + 2) / 5 + d - 1 in
  let doe := yoe * 365 + yoe / 4 - yoe / 100 + doy in
  era * 146097 + doe - 719468.

Definition civil_from_days (z : Z) : Z * Z * Z :=
  let z := z + 719468 in
  let era := z / 146097 in
  let doe := z mod 146097 in
  let yoe := (doe - doe / 1460 + doe / 36524 - doe / 146096) / 365 in
  let y := yoe + era * 400 in
  let doy := doe - (365 * yoe + yoe / 4 - yoe / 100) in
  let mp := (5 * doy + 2) / 153 in
  let d := doy - (153 * mp + 2) / 5 + 1 in
  let m := if mp <? 10 then mp + 3 else mp - 9 in
  (if m <=? 2 then y + 1 else y, m, d).

(** The equation that makes the two conversions inverse, for one day [doe]
    of a 400-year era; it is checked for each of the 146097 days. *)
Definition doe_ok (doe : Z) : bool :=
  let yoe := (doe - doe / 1460 + doe / 36524 - doe / 146096) / 365 in
  let doy := doe - (365 * yoe + yoe / 4 - yoe / 100) in
  let mp := (5 * doy + 2) / 153 in
  let d := doy - (153 * mp + 2) / 5 + 1 in
  let m := if mp <? 10 then mp + 3 else mp - 9 in
  (0 <=? yoe) && (yoe <? 400) && (1 <=? m) && (m <=? 12) &&
  (yoe * 365 + yoe / 4 - yoe / 100
   + (153 * (if 2 <? m then m - 3 else m + 9) + 2) / 5 + d - 1 =? doe).

(** [f] holds on each of the [n] integers from [lo] on. *)
Fixpoint holds_on (f : Z -> bool) (n : positive) (lo : Z) : bool :=
  match n with
  | xH => f lo
  | xO p => holds_on f p lo && holds_on f p (lo + Zpos p)
  | xI p => f lo && holds_on f p (lo + 1) && holds_on f p (lo + 1 + Zpos p)
  end.

Definition YearFromTime (t : Z) : Z := fst (fst (civil_from_days (Day t))).
(** Months count from 0, as in ECMAScript. *)
Definition MonthFromTime (t : Z) : Z := snd (fst (civil_from_days (Day t))) - 1.
Definition DateFromTime (t : Z) : Z := snd (civil_from_days (Day t)).

(** [MakeDay(year, month, date)]: the day number of the first of the
    month, plus [date - 1]; a [date] outside the month carries over. *)
Definition MakeDay (year month date : Z) : Z :=
  let ym := year + month / 12 in
  let mn := month mod 12 in
  days_from_civil ym (mn + 1) 1 + date - 1.

Section Zone.
(** [LocalTZA(t, isUTC)]: the offset of the host's time zone. *)
Variable LocalTZA : Z -> bool -> Z.

Definition LocalTime (t : Z) : Z := t + LocalTZA t true.
Definition UTC (t : Z) : Z := t - LocalTZA t false.

(** [d.getDate()] and the time value after [d.setDate(dt)]. *)
Definition getDate (t : Z) : Z := DateFromTime (LocalTime t).

Definition setDate (t dt : Z) : Z :=
  let lt := LocalTime t in
  UTC (MakeDate (MakeDay (YearFromTime lt) (MonthFromTime lt) dt)
                (TimeWithinDay lt)).
End Zone.

Definition digit (c : ascii) : option Z :=
  let n := nat_of_ascii c in
  if (Nat.leb 48 n && Nat.leb n 57)%bool then Some (Z.of_nat n - 48) else None.

Definition number2 (a b : ascii) : option Z :=
  match digit a, digit b with
  | Some x, Some y => Some (10 * x + y)
  | _, _ => None
  end.

Definition number4 (a b c d : ascii) : option Z :=
  match number2 a b, number2 c d with
  | Some x, Some y => Some (100 * x + y)
  | _, _ => None
  end.

Definition is_dash (c : ascii) : bool := Ascii.eqb c "-"%char.

(** [new Date(s)] for the date-only form [YYYY-MM-DD], which is what a
    [date] column holds: midnight UTC of that day.  [None] is the
    invalid date, whose time value is [NaN]. *)
Definition parse (s : string) : option Z :=
  match s with
  | String y1 (String y2 (String y3 (String y4 (String s1
      (String m1 (String m2 (String s2 (String d1 (String d2 EmptyString))))))))) =>
      match number4 y1 y2 y3 y4, number2 m1 m2, number2 d1 d2 with
      | Some y, Some m, Some d =>
          if (is_dash s1 && is_dash s2 && (1 <=? m) && (m <=? 12) && (1 <=? d)
              && (d <=? days_from_civil (if m =? 12 then y + 1 else y)
                                        (if m =? 12 then 1 else m + 1) 1
                        - days_from_civil y m 1))%bool
          then Some (MakeDate (days_from_civil y m d) 0)
          else None
      | _, _, _ => None
      end
  | _ => None
  end.

End Date.

(* ================================================================== *)
(** * Dashboard *)
(* ================================================================== *)

Module Dashboard.
Import Proc.

Definition uuid := string.

(** A row of [workouts] as [select('*')] returns it.  [duration_minutes]
    is a nullable integer column; integers of that size add exactly in
    binary64, so durations and counts are kept as integers. *)
Record Workout := mkWorkout {
  id : uuid;
  name : string;
  date : string;
  duration_minutes : option Z
}.

(** A row of the third query, with its joined [workout_exercises(id)]. *)
Record RecentRow := mkRecentRow {
  r_id : uuid;
  r_name : string;
  r_date : string;
  r_duration_minutes : option Z;
  workout_exercises : option (list uuid)
}.

Record DashboardStats := mkStats {
  totalWorkouts : Z;
  totalMinutes : Z;
  activeGoals : Z;
  weeklyWorkouts : Z
}.

Record RecentWorkout := mkRecent {
  rw_id : uuid;
  rw_name : string;
  rw_date : string;
  rw_duration_minutes : option Z;
  exercise_count : Z
}.

(** The [useState] cells, and the console. *)
Record state := mkState {
  stats : DashboardStats;
  recentWorkouts : list RecentWorkout;
  loading : bool;
  console : list string
}.

Definition initial : state :=
  mkState (mkStats 0 0 0 0) [] true [].

Inductive query :=
| SelectWorkouts (user : uuid)
| SelectActiveGoals (user : uuid)
| SelectRecentWorkouts (user : uuid).

Inductive rows :=
| WorkoutRows (l : list Workout)
| GoalRows (l : list Goals.Goal)
| RecentRows (l : list RecentRow).

Record response := mkResponse {
  data : option rows;
  error : option string
}.

Definition workouts_of (r : response) : option (list Workout) :=
  match data r with Some (WorkoutRows l) => Some l | _ => None end.
Definition goals_of (r : response) : option (list Goals.Goal) :=
  match data r with Some (GoalRows l) => Some l | _ => None end.
Definition recent_of (r : response) : option (list RecentRow) :=
  match data r with Some (RecentRows l) => Some l | _ => None end.

(** [x || 0] on an integer that may be [null] or [undefined]. *)
Definition or0 (x : option Z) : Z :=
  match x with Some v => v | None => 0 end.

Definition len {A} (l : list A) : Z := Z.of_nat (length l).

(** [workouts?.length || 0] *)
Definition count {A} (l : option (list A)) : Z := or0 (option_map len l).

(** [workouts?.reduce((sum, w) => sum + (w.duration_minutes || 0), 0) || 0] *)
Definition sum_minutes (workouts : option (list Workout)) : Z :=
  or0 (option_map
         (fun l => fold_left (fun sum w => sum + or0 (duration_minutes w)) l 0)
         workouts).

(** The specification's wording of the total: the sum of the workouts'
    [duration_minutes], a missing duration counting as 0. *)
Definition minutes (w : Workout) : Z := or0 (duration_minutes w).

Fixpoint sum_of (l : list Z) : Z :=
  match l with
  | [] => 0
  | x :: tl => x + sum_of tl
  end.

Section Clock.
Variable LocalTZA : Z -> bool -> Z.

(** [const weekAgo = new Date(); weekAgo.setDate(weekAgo.getDate() - 7)] *)
Definition weekAgo (now : Z) : Z :=
  Date.setDate LocalTZA now (Date.getDate LocalTZA now - 7).

(** [new Date(w.date) >= weekAgo]; a comparison with an invalid date
    is false. *)
Definition in_week (now : Z) (w : Workout) : bool :=
  match Date.parse (date w) with
  | Some t => weekAgo now <=? t
  | None => false
  end.

Definition weekly (now : Z) (workouts : option (list Workout)) : Z :=
  count (option_map (filter (in_week now)) workouts).

Definition compute_stats (now : Z) (workouts : option (list Workout))
           (goals : option (list Goals.Goal)) : DashboardStats :=
  mkStats (count workouts) (sum_minutes workouts) (count goals)
          (weekly now workouts).
End Clock.

Definition formattedRecent (d : option (list RecentRow)) : list RecentWorkout :=
  match d with
  | Some l =>
      map (fun workout =>
             mkRecent (r_id workout) (r_name workout) (r_date workout)
                      (r_duration_minutes workout)
                      (count (workout_exercises workout))) l
  | None => []
  end.

Inductive effect :=
| SetLoading (b : bool)
| SetStats (s : DashboardStats)
| SetRecentWorkouts (l : list RecentWorkout)
| ConsoleError (msg : string).

Definition handler := proc effect query response.

Definition finally_ : handler := Emit (SetLoading false) Done.
Definition catch_ (e : string) : handler :=
  Emit (ConsoleError "Error loading dashboard data:") finally_.

(** [loadDashboardData]; [now] is what [new Date()] reads. *)
Definition loadDashboardData (LocalTZA : Z -> bool -> Z) (user : uuid)
           (now : Z) : handler :=
  Emit (SetLoading true)
    (Await (SelectWorkouts user) (fun r1 =>
       match error r1 with
       | Some workoutsError => catch_ workoutsError
       | None =>
           Await (SelectActiveGoals user) (fun r2 =>
             match error r2 with
             | Some goalsError => catch_ goalsError
             | None =>
                 Emit (SetStats (compute_stats LocalTZA now
                                   (workouts_of r1) (goals_of r2)))
                   (Await (SelectRecentWorkouts user) (fun r3 =>
                      match error r3 with
                      | Some recentError => catch_ recentError
                      | None =>
                          Emit (SetRecentWorkouts (formattedRecent (recent_of r3)))
                               finally_
                      end))
             end)
       end)).

(** The state after the effects of a run, applied in order. *)
Definition apply_effect (st : state) (e : effect) : state :=
  match e with
  | SetLoading b => mkState (stats st) (recentWorkouts st) b (console st)
  | SetStats s => mkState s (recentWorkouts st) (loading st) (console st)
  | SetRecentWorkouts l => mkState (stats st) l (loading st) (console st)
  | ConsoleError msg =>
      mkState (stats st) (recentWorkouts st) (loading st) (console st ++ [msg])
  end.

(** The service only answers here; [answer] is any behaviour it may
    show, failures included. *)
Definition serve (answer : query -> response) (q : query) (u : unit)
  : response * unit := (answer q, u).

(** The stats one load computes from the answers to its first two
    queries, and the console after a logged failure. *)
Definition fresh_stats (LocalTZA : Z -> bool -> Z) (answer : query -> response)
           (user : uuid) (now : Z) : DashboardStats :=
  compute_stats LocalTZA now (workouts_of (answer (SelectWorkouts user)))
                (goals_of (answer (SelectActiveGoals user))).

Definition logged (st : state) : list string :=
  console st ++ ["Error loading dashboard data:"].

Definition load (LocalTZA : Z -> bool -> Z) (answer : query -> response)
           (user : uuid) (now : Z) (st : state) : state :=
  fold_left apply_effect
    (effects (fst (run (serve answer) (loadDashboardData LocalTZA user now) tt)))
    st.

End Dashboard.

(* ================================================================== *)
(** * Goals view: loading and editing goals *)
(* ================================================================== *)

Module GoalsView.
Import Js Proc.

Definition uuid := string.

(** A row of [user_goals] as [select('*')] returns it ([interface Goal],
    with the owner column). *)
Record GoalRow := mkGoalRow {
  id : uuid;
  user_id : uuid;
  type : string;
  target_value : number;
  current_value : number;
  target_date : option string;
  achieved : bool;
  created_at : string
}.

(** The [formData] cell. *)
Record FormData := mkFormData {
  fd_type : string;
  fd_target_value : number;
  fd_current_value : number;
  fd_target_date : string
}.

Definition blank_form : FormData :=
  mkFormData EmptyString (lit 0) (lit 0) EmptyString.

(** The [useState] cells of the view, and the console. *)
Record state := mkState {
  goals : list GoalRow;
  loading : bool;
  showForm : bool;
  editingGoal : option GoalRow;
  formData : FormData;
  console : list string
}.

Definition initial : state := mkState [] true false None blank_form [].

(** The columns [handleSubmit] sends. *)
Record goal_fields := mkGoalFields {
  gf_type : string;
  gf_target_value : number;
  gf_current_value : number;
  gf_target_date : option string
}.

Inductive request :=
| SelectGoals (user : uuid)
| UpdateGoal (goal : uuid) (f : goal_fields)
| InsertGoal (user : uuid) (f : goal_fields)
| DeleteGoal (goal : uuid)
| UpdateAchieved (goal : uuid) (b : bool).

Record response := mkResponse {
  data : option (list GoalRow);
  error : option string
}.

Inductive effect :=
| SetGoals (l : list GoalRow)
| SetLoading (b : bool)
| SetShowForm (b : bool)
| SetEditingGoal (g : option GoalRow)
| SetFormData (f : FormData)
| ConsoleError (msg : string).

Definition handler := proc effect request response.

(** [s || null] on a string. *)
Definition or_null (s : string) : option string :=
  match s with EmptyString => None | _ => Some s end.

(** [s || ''] on a string that may be [null]. *)
Definition or_empty (s : option string) : string :=
  match s with Some (String c r) => String c r | _ => EmptyString end.

(** [data || []] *)
Definition or_nil (l : option (list GoalRow)) : list GoalRow :=
  match l with Some l => l | None => [] end.

Definition fields_of (f : FormData) : goal_fields :=
  mkGoalFields (fd_type f) (fd_target_value f) (fd_current_value f)
               (or_null (fd_target_date f)).

(** [loadGoals] *)
Definition loadGoals (user : uuid) : handler :=
  Emit (SetLoading true)
    (Await (SelectGoals user) (fun r =>
       match error r with
       | Some e => Emit (ConsoleError "Error loading goals:")
                        (Emit (SetLoading false) Done)
       | None => Emit (SetGoals (or_nil (data r)))
                      (Emit (SetLoading false) Done)
       end)).

(** What [handleSubmit] does once the write went through.  [loadGoals()]
    is started without [await]; nothing of the handler follows it, so the
    events come in the same order. *)
Definition submitted (user : uuid) : handler :=
  Emit (SetShowForm false)
    (Emit (SetEditingGoal None)
       (Emit (SetFormData blank_form) (loadGoals user))).

(** [handleSubmit], after [e.preventDefault()]. *)
Definition handleSubmit (user : uuid) (st : state) : handler :=
  match editingGoal st with
  | Some g =>
      Await (UpdateGoal (id g) (fields_of (formData st))) (fun r =>
        match error r with
        | Some e => Emit (ConsoleError "Error saving goal:") Done
        | None => submitted user
        end)
  | None =>
      Await (InsertGoal user (fields_of (formData st))) (fun r =>
        match error r with
        | Some e => Emit (ConsoleError "Error saving goal:") Done
        | None => submitted user
        end)
  end.

(** [handleDelete]; [confirmed] is the answer to the [confirm] dialog. *)
Definition handleDelete (user : uuid) (goalId : uuid) (confirmed : bool)
  : handler :=
  if negb confirmed then Done
  else
    Await (DeleteGoal goalId) (fun r =>
      match error r with
      | Some e => Emit (ConsoleError "Error deleting goal:") Done
      | None => loadGoals user
      end).

(** [toggleAchieved] *)
Definition toggleAchieved (user : uuid) (goal : GoalRow) : handler :=
  Await (UpdateAchieved (id goal) (negb (achieved goal))) (fun r =>
    match error r with
    | Some e => Emit (ConsoleError "Error updating goal:") Done
    | None => loadGoals user
    end).

Definition apply_effect (st : state) (e : effect) : state :=
  match e with
  | SetGoals l =>
      mkState l (loading st) (showForm st) (editingGoal st) (formData st) (console st)
  | SetLoading b =>
      mkState (goals st) b (showForm st) (editingGoal st) (formData st) (console st)
  | SetShowForm b =>
      mkState (goals st) (loading st) b (editingGoal st) (formData st) (console st)
  | SetEditingGoal g =>
      mkState (goals st) (loading st) (showForm st) g (formData st) (console st)
  | SetFormData f =>
      mkState (goals st) (loading st) (showForm st) (editingGoal st) f (console st)
  | ConsoleError msg =>
      mkState (goals st) (loading st) (showForm st) (editingGoal st) (formData st)
              (console st ++ [msg])
  end.

(** [startEdit] *)
Definition startEdit (goal : GoalRow) (st : state) : state :=
  apply_effect
    (apply_effect
       (apply_effect st (SetEditingGoal (Some goal)))
       (SetFormData (mkFormData (type goal) (target_value goal)
                                (current_value goal)
                                (or_empty (target_date goal)))))
    (SetShowForm true).

(** ** The table [user_goals] *)

Definition with_fields (r : GoalRow) (f : goal_fields) : GoalRow :=
  mkGoalRow (id r) (user_id r) (gf_type f) (gf_target_value f)
            (gf_current_value f) (gf_target_date f) (achieved r) (created_at r).

Definition with_achieved (r : GoalRow) (b : bool) : GoalRow :=
  mkGoalRow (id r) (user_id r) (type r) (target_value r) (current_value r)
            (target_date r) b (created_at r).

Section Service.
(** Which requests the service turns down, the id and time stamp it gives
    a new row, and its [ORDER BY created_at DESC]. *)
Variable rejects : request -> bool.
Variable gen_random_uuid : list GoalRow -> uuid.
Variable now : list GoalRow -> string.
Variable newest_first : list GoalRow -> list GoalRow.

Definition apply (q : request) (t : list GoalRow) : response * list GoalRow :=
  match q with
  | SelectGoals u =>
      (mkResponse
         (Some (newest_first (filter (fun r => String.eqb (user_id r) u) t))) None,
       t)
  | UpdateGoal g f =>
      (mkResponse None None,
       map (fun r => if String.eqb (id r) g then with_fields r f else r) t)
  | InsertGoal u f =>
      (mkResponse None None,
       t ++ [mkGoalRow (gen_random_uuid t) u (gf_type f) (gf_target_value f)
                       (gf_current_value f) (gf_target_date f) false (now t)])
  | DeleteGoal g =>
      (mkResponse None None, filter (fun r => negb (String.eqb (id r) g)) t)
  | UpdateAchieved g b =>
      (mkResponse None None,
       map (fun r => if String.eqb (id r) g then with_achieved r b else r) t)
  end.

Definition serve (q : request) (t : list GoalRow) : response * list GoalRow :=
  if rejects q then (mkResponse None (Some "rejected"), t) else apply q t.

(** One handler run to its end: the view after it and the table after
    it. *)
Definition perform (h : handler) (st : state) (t : list GoalRow)
  : state * list GoalRow :=
  let '(tr, t') := run serve h t in
  (fold_left apply_effect (effects tr) st, t').

Definition sent (h : handler) (t : list GoalRow) : list request :=
  requests (fst (run serve h t)).
End Service.

End GoalsView.

(* ================================================================== *)
(** * Workouts: the list view *)
(* ================================================================== *)

Module Workouts.
Import Proc.

Definition uuid := string.

(** [interface Workout] of the list. *)
Record Workout := mkWorkout {
  id : uuid;
  name : string;
  date : string;
  duration_minutes : Z;
  notes : option string;
  exercise_count : Z
}.

(** A row of the list query, with its joined [workout_exercises(id)]. *)
Record FetchedWorkout := mkFetched {
  f_id : uuid;
  f_name : string;
  f_date : string;
  f_duration_minutes : Z;
  f_notes : option string;
  workout_exercises : option (list uuid)
}.

Record state := mkState {
  workouts : list Workout;
  loading : bool;
  showForm : bool;
  editingWorkout : option Workout;
  console : list string
}.

Definition initial : state := mkState [] true false None [].

Inductive request :=
| SelectWorkouts (user : uuid)
| DeleteWorkout (workout : uuid).

Record response := mkResponse {
  data : option (list FetchedWorkout);
  error : option string
}.

Inductive effect :=
| SetWorkouts (l : list Workout)
| SetLoading (b : bool)
| SetShowForm (b : bool)
| SetEditingWorkout (w : option Workout)
| ConsoleError (msg : string).

Definition handler := proc effect request response.

(** [workout.workout_exercises?.length || 0] *)
Definition count_of (l : option (list uuid)) : Z :=
  match l with Some l => Z.of_nat (length l) | None => 0 end.

Definition formattedWorkouts (d : option (list FetchedWorkout)) : list Workout :=
  match d with
  | Some l =>
      map (fun workout =>
             mkWorkout (f_id workout) (f_name workout) (f_date workout)
                       (f_duration_minutes workout) (f_notes workout)
                       (count_of (workout_exercises workout))) l
  | None => []
  end.

(** [loadWorkouts] *)
Definition loadWorkouts (user : uuid) : handler :=
  Emit (SetLoading true)
    (Await (SelectWorkouts user) (fun r =>
       match error r with
       | Some e => Emit (ConsoleError "Error loading workouts:")
                        (Emit (SetLoading false) Done)
       | None => Emit (SetWorkouts (formattedWorkouts (data r)))
                      (Emit (SetLoading false) Done)
       end)).

(** [handleDeleteWorkout]; [confirmed] is the answer to the [confirm]
    dialog. *)
Definition handleDeleteWorkout (user workoutId : uuid) (confirmed : bool)
  : handler :=
  if negb confirmed then Done
  else
    Await (DeleteWorkout workoutId) (fun r =>
      match error r with
      | Some e => Emit (ConsoleError "Error deleting workout:") Done
      | None => loadWorkouts user
      end).


Definition apply_effect (st : state) (e : effect) : state :=
  match e with
  | SetWorkouts l =>
      mkState l (loading st) (showForm st) (editingWorkout st) (console st)
  | SetLoading b =>
      mkState (workouts st) b (showForm st) (editingWorkout st) (console st)
  | SetShowForm b =>
      mkState (workouts st) (loading st) b (editingWorkout st) (console st)
  | SetEditingWorkout w =>
      mkState (workouts st) (loading st) (showForm st) w (console st)
  | ConsoleError msg =>
      mkState (workouts st) (loading st) (showForm st) (editingWorkout st)
              (console st ++ [msg])
  end.

(** ** The two tables, as this view reaches them *)

Section Service.
(** Which requests the service turns down, its [ORDER BY date DESC], and
    the id of each exercise row. *)
Variable rejects : request -> bool.
Variable newest_first : list FetchedWorkout -> list FetchedWorkout.
Variable row_id : Store.workout_exercise_row -> uuid.

Definition fetched (d : Store.db) (r : Store.workout_row) : FetchedWorkout :=
  mkFetched (Store.id r) (Store.name (Store.fields r))
            (Store.date (Store.fields r))
            (Store.duration_minutes (Store.fields r))
            (Some (Store.notes (Store.fields r)))
            (Some (map row_id (Store.rows_of (Store.id r) d))).

(** [workout_exercises.workout_id] is declared
    [REFERENCES workouts(id) ON DELETE CASCADE]: deleting a workout
    deletes its exercise rows. *)
Definition apply (q : request) (d : Store.db) : response * Store.db :=
  match q with
  | SelectWorkouts u =>
      (mkResponse
         (Some (newest_first
                  (map (fetched d)
                       (filter (fun r => String.eqb (Store.user_id r) u)
                               (Store.workouts d)))))
         None,
       d)
  | DeleteWorkout w =>
      (mkResponse None None,
       Store.mkDb
         (filter (fun r => negb (String.eqb (Store.id r) w)) (Store.workouts d))
         (filter (fun r => negb (String.eqb (Store.workout_id r) w))
                 (Store.workout_exercises d)))
  end.

Definition serve (q : request) (d : Store.db) : response * Store.db :=
  if rejects q then (mkResponse None (Some "rejected"), d) else apply q d.

Definition perform (h : handler) (st : state) (d : Store.db)
  : state * Store.db :=
  let '(tr, d') := run serve h d in
  (fold_left apply_effect (effects tr) st, d').

Definition sent (h : handler) (d : Store.db) : list request :=
  requests (fst (run serve h d)).
End Service.

End Workouts.

(* ================================================================== *)
(** * Profile view *)
(* ================================================================== *)

Module Profile.
Import Proc.

Definition uuid := string.

(** [interface Profile], a row of [profiles]. *)
Record ProfileRow := mkProfile {
  id : uuid;
  full_name : option string;
  created_at : string;
  updated_at : string
}.

Record state := mkState {
  profile : option ProfileRow;
  fullName : string;
  loading : bool;
  saving : bool;
  console : list string;
  alerts : list string
}.

Definition initial : state := mkState None EmptyString true false [] [].

Inductive request :=
| SelectProfile (user : uuid)
| InsertProfile (user : uuid) (name : string)
| UpdateProfile (user : uuid) (name : string) (updated : string).

(** [{ data, error }]; of an error only its [code] is looked at. *)
Record response := mkResponse {
  data : option ProfileRow;
  error : option string
}.

Inductive effect :=
| SetProfile (p : option ProfileRow)
| SetProfileName (name : string)
| SetFullName (name : string)
| SetLoading (b : bool)
| SetSaving (b : bool)
| ConsoleError (msg : string)
| Alert (msg : string).

Definition handler := proc effect request response.

(** [s || ''] on a string that may be [null] or [undefined]. *)
Definition or_empty (s : option string) : string :=
  match s with Some (String c r) => String c r | _ => EmptyString end.

Definition finally_loading : handler := Emit (SetLoading false) Done.

Definition catch_loading : handler :=
  Emit (ConsoleError "Error loading profile:") finally_loading.

(** [setProfile(p); setFullName(p.full_name || '')]; on a [null] row the
    second statement throws after the first has run. *)
Definition show (p : option ProfileRow) : handler :=
  match p with
  | Some row =>
      Emit (SetProfile (Some row))
        (Emit (SetFullName (or_empty (full_name row))) finally_loading)
  | None => Emit (SetProfile None) catch_loading
  end.

(** [loadProfile]; [metadata_name] is [user.user_metadata?.full_name]. *)
Definition loadProfile (user : uuid) (metadata_name : option string) : handler :=
  Emit (SetLoading true)
    (Await (SelectProfile user) (fun r =>
       match error r with
       | Some code =>
           if String.eqb code "PGRST116" then
             Await (InsertProfile user (or_empty metadata_name)) (fun r2 =>
               match error r2 with
               | Some createError => catch_loading
               | None => show (data r2)
               end)
           else catch_loading
       | None => show (data r)
       end)).

(** [handleSave]; [now] is [new Date().toISOString()]. *)
Definition handleSave (user : uuid) (now : string) (st : state) : handler :=
  Emit (SetSaving true)
    (Await (UpdateProfile user (fullName st) now) (fun r =>
       match error r with
       | Some e =>
           Emit (ConsoleError "Error updating profile:")
             (Emit (Alert "Error updating profile. Please try again.")
                (Emit (SetSaving false) Done))
       | None =>
           Emit (SetProfileName (fullName st))
             (Emit (Alert "Profile updated successfully!")
                (Emit (SetSaving false) Done))
       end)).

Definition with_name (p : ProfileRow) (name : string) : ProfileRow :=
  mkProfile (id p) (Some name) (created_at p) (updated_at p).

Definition apply_effect (st : state) (e : effect) : state :=
  match e with
  | SetProfile p =>
      mkState p (fullName st) (loading st) (saving st) (console st) (alerts st)
  | SetProfileName name =>
      mkState (option_map (fun prev => with_name prev name) (profile st))
              (fullName st) (loading st) (saving st) (console st) (alerts st)
  | SetFullName name =>
      mkState (profile st) name (loading st) (saving st) (console st) (alerts st)
  | SetLoading b =>
      mkState (profile st) (fullName st) b (saving st) (console st) (alerts st)
  | SetSaving b =>
      mkState (profile st) (fullName st) (loading st) b (console st) (alerts st)
  | ConsoleError msg =>
      mkState (profile st) (fullName st) (loading st) (saving st)
              (console st ++ [msg]) (alerts st)
  | Alert msg =>
      mkState (profile st) (fullName st) (loading st) (saving st)
              (console st) (alerts st ++ [msg])
  end.

(** ** The table [profiles] *)

Section Service.
(** [fails] gives the error code of a request the service turns down for
    reasons of its own; [clock] is its [now()]. *)
Variable fails : request -> option string.
Variable clock : list ProfileRow -> string.

Definition rows_of (u : uuid) (t : list ProfileRow) : list ProfileRow :=
  filter (fun r => String.eqb (id r) u) t.

(** [.single()] answers with the row when exactly one matches and with
    the error [PGRST116] otherwise; [id] is the primary key, so a second
    row with the same id is refused (code 23505). *)
Definition apply (q : request) (t : list ProfileRow)
  : response * list ProfileRow :=
  match q with
  | SelectProfile u =>
      match rows_of u t with
      | [r] => (mkResponse (Some r) None, t)
      | _ => (mkResponse None (Some "PGRST116"), t)
      end
  | InsertProfile u name =>
      match rows_of u t with
      | [] =>
          let row := mkProfile u (Some name) (clock t) (clock t) in
          (mkResponse (Some row) None, t ++ [row])
      | _ => (mkResponse None (Some "23505"), t)
      end
  | UpdateProfile u name updated =>
      (mkResponse None None,
       map (fun r => if String.eqb (id r) u
                     then mkProfile (id r) (Some name) (created_at r) updated
                     else r) t)
  end.

Definition serve (q : request) (t : list ProfileRow)
  : response * list ProfileRow :=
  match fails q with
  | Some code => (mkResponse None (Some code), t)
  | None => apply q t
  end.

Definition perform (h : handler) (st : state) (t : list ProfileRow)
  : state * list ProfileRow :=
  let '(tr, t') := run serve h t in
  (fold_left apply_effect (effects tr) st, t').

Definition sent (h : handler) (t : list ProfileRow) : list request :=
  requests (fst (run serve h t)).
End Service.

End Profile.

(* ================================================================== *)
(** * Sample data *)
(* ================================================================== *)

(** Concrete rows and environments used by the examples further down. *)
Module Sample.
Import Js.

(** Two rows of the seeded catalog. *)
Definition pushups : WorkoutForm.Exercise :=
  WorkoutForm.mkExercise "e-1" "Push-ups" "Bodyweight"
                         ["chest"; "triceps"; "shoulders"].

Definition deadlift : WorkoutForm.Exercise :=
  WorkoutForm.mkExercise "e-5" "Deadlift" "Weightlifting"
                         ["back"; "hamstrings"; "glutes"].

(** An entry whose last set is 12 reps at weight 0. *)
Definition twelve_reps : WorkoutForm.WorkoutExercise :=
  WorkoutForm.mkWorkoutExercise None "e-1" "Push-ups" 2
    [Some (lit 10); Some (lit 12)] [Some (lit 20); Some (lit 0)] 60 EmptyString.

(** A stored workout with two exercise rows, next to a row of another
    workout. *)
Definition leg_day : Store.workout_row :=
  Store.mkWorkout "w-1" "u-1" (Store.mkFields "Leg day" "2025-09-08" 45 EmptyString).

Definition stored : Store.db :=
  Store.mkDb [leg_day]
    [Store.mkRow "w-1" "e-2" 3 [Some (lit 10); Some (lit 10); Some (lit 10)]
                 [Some (lit 0); Some (lit 0); Some (lit 0)] 60 EmptyString;
     Store.mkRow "w-2" "e-1" 1 [Some (lit 8)] [Some (lit 0)] 60 EmptyString;
     Store.mkRow "w-1" "e-5" 1 [Some (lit 5)] [Some (lit 100)] 90 EmptyString].

(** The edit form of that workout, with one entry in memory. *)
Definition editing : WorkoutForm.form :=
  WorkoutForm.mkForm "Leg day" "2025-09-08" 50 EmptyString [pushups; deadlift]
                     [twelve_reps] false EmptyString false.

(** A service that turns down every insert of exercise rows. *)
Definition rejects_exercise_inserts (q : Store.request) : bool :=
  match q with
  | Store.InsertWorkoutExercises _ => true
  | _ => false
  end.

Definition next_uuid (d : Store.db) : Store.uuid := "w-new".

(** A host whose time zone is UTC, and one at UTC+05:30. *)
Definition utc (t : Z) (isUTC : bool) : Z := 0.
Definition ist (t : Z) (isUTC : bool) : Z := 19800000.

(** New York around the start of daylight saving time in 2025
    (2025-03-09, 02:00 local, 07:00 UTC): five hours behind UTC before,
    four hours after. *)
Definition new_york (t : Z) (isUTC : bool) : Z :=
  if t <? (if isUTC then 1741503600000 else 1741485600000)
  then -18000000 else -14400000.

Definition workout_on (day : string) (m : Z) : Dashboard.Workout :=
  Dashboard.mkWorkout "w-1" "Leg day" day (Some m).

(** What the service holds for user [u-1]: two workouts, no open goal. *)
Definition fetched : list Dashboard.Workout :=
  [Dashboard.mkWorkout "w-1" "Leg day" "2025-09-12" (Some 45);
   Dashboard.mkWorkout "w-2" "Run" "2025-08-30" (Some 30)].

Definition answers (q : Dashboard.query) : Dashboard.response :=
  match q with
  | Dashboard.SelectWorkouts _ =>
      Dashboard.mkResponse (Some (Dashboard.WorkoutRows fetched)) None
  | Dashboard.SelectActiveGoals _ =>
      Dashboard.mkResponse (Some (Dashboard.GoalRows [])) None
  | Dashboard.SelectRecentWorkouts _ =>
      Dashboard.mkResponse (Some (Dashboard.RecentRows [])) None
  end.

(** The same service when the first, or only the third, query fails. *)
Definition workouts_fail (q : Dashboard.query) : Dashboard.response :=
  match q with
  | Dashboard.SelectWorkouts _ => Dashboard.mkResponse None (Some "timeout")
  | _ => answers q
  end.

Definition recent_fails (q : Dashboard.query) : Dashboard.response :=
  match q with
  | Dashboard.SelectRecentWorkouts _ => Dashboard.mkResponse None (Some "timeout")
  | _ => answers q
  end.

(** 2025-09-15T00:00:00Z, 2025-09-15T12:00:00Z and 2025-03-12T00:00:00Z. *)
Definition monday_midnight : Z := 1757894400000.
Definition monday_noon : Z := 1757937600000.
Definition march_midnight : Z := 1741737600000.


Definition accepts_all (q : Store.request) : bool := false.

(** Ids of exercise rows and names of the catalog, for the selects. *)
Definition row_uuid (r : Store.workout_exercise_row) : Store.uuid :=
  ("row-" ++ Store.exercise_id r)%string.

Definition catalog_name (e : Store.uuid) : option string :=
  if String.eqb e "e-1" then Some "Push-ups"
  else if String.eqb e "e-5" then Some "Deadlift" else None.

(** Two stored goals of user [u-1] and a service for them that accepts
    everything and lists rows in table order. *)
Definition bench_goal : GoalsView.GoalRow :=
  GoalsView.mkGoalRow "g-1" "u-1" "Bench press" (lit 100) (lit 80)
                      (Some "2025-12-31") false "2025-09-01T08:00:00Z".

Definition run_goal : GoalsView.GoalRow :=
  GoalsView.mkGoalRow "g-2" "u-1" "Run 5k" (lit 5) (lit 5) None true
                      "2025-09-02T08:00:00Z".

Definition goal_table : list GoalsView.GoalRow := [bench_goal; run_goal].

Definition goals_accepted (q : GoalsView.request) : bool := false.
Definition goal_uuid (t : list GoalsView.GoalRow) : GoalsView.uuid := "g-new".
Definition goal_clock (t : list GoalsView.GoalRow) : string :=
  "2025-09-15T12:00:00Z".
Definition goals_in_table_order (l : list GoalsView.GoalRow)
  : list GoalsView.GoalRow := l.

(** The goals view with the form filled in for a new goal. *)
Definition squat_form : GoalsView.state :=
  GoalsView.mkState goal_table false true None
    (GoalsView.mkFormData "Squat" (lit 120) (lit 60) EmptyString) [].

(** The same for the list of workouts. *)
Definition list_accepted (q : Workouts.request) : bool := false.
Definition list_in_table_order (l : list Workouts.FetchedWorkout)
  : list Workouts.FetchedWorkout := l.

(** A stored profile, and a service for profiles that never fails. *)
Definition ada : Profile.ProfileRow :=
  Profile.mkProfile "u-1" (Some "Ada") "2025-09-01T08:00:00Z"
                    "2025-09-01T08:00:00Z".

Definition no_failure (q : Profile.request) : option string := None.
Definition profile_clock (t : list Profile.ProfileRow) : string :=
  "2025-09-15T12:00:00Z".

(** The profile view after the name was retyped. *)
Definition renamed : Profile.state :=
  Profile.mkState (Some ada) "Ada L." false false [] [].

End Sample.

(* ================================================================== *)
(** * Properties of the Goals view *)
(* ================================================================== *)

Section GoalsFacts.
Import Js Goals.

Lemma lit_0 : lit 0 = S754_zero false.
Proof. reflexivity. Qed.

Lemma lit_100 : lit 100 = S754_finite false 7036874417766400 (-46).
Proof. vm_compute. reflexivity. Qed.

(** [Math.min(x, 100)] is [x] unless [x] exceeds 100. *)
Lemma Math_min_100 (x : number) :
  Math_min x (lit 100) = if lt (lit 100) x then lit 100 else x.
Proof.
  rewrite lit_100. destruct x as [s| s| |s m e]; reflexivity.
Qed.

Lemma lt_irrefl_100 : lt (lit 100) (lit 100) = false.
Proof. vm_compute. reflexivity. Qed.

(** The result never exceeds 100. *)
Lemma getProgress_upper (g : Goal) : lt (lit 100) (getProgress g) = false.
Proof.
  unfold getProgress. rewrite Math_min_100.
  generalize (mul (div (current_value g) (target_value g)) (lit 100)).
  intros x. destruct (lt (lit 100) x) eqn:E; [apply lt_irrefl_100 | exact E].
Qed.

(** Below 0 nothing is clamped: the quotient is returned as it is, while
    the two-sided clamp of the specification gives 0. *)
Lemma getProgress_negative (g : Goal) :
  lt (percentage g) (lit 0) = true ->
  getProgress g = percentage g /\ spec_progress g = lit 0.
Proof.
  unfold getProgress, spec_progress, clamp. fold (percentage g).
  rewrite Math_min_100. generalize (percentage g). intros x H.
  rewrite lit_0 in *.
  destruct x as [s| s| |s m e]; try discriminate H.
  - destruct s; [|discriminate H]. rewrite lit_100. split; reflexivity.
  - destruct s; [|discriminate H]. rewrite lit_100. split; reflexivity.
Qed.

(** From 0 upwards (and on [NaN]) the code and the two-sided clamp agree;
    the only difference is the sign of a zero. *)
Lemma getProgress_nonnegative (g : Goal) :
  lt (percentage g) (lit 0) = false ->
  getProgress g = spec_progress g \/
  (getProgress g = neg_zero /\ spec_progress g = pos_zero).
Proof.
  unfold getProgress, spec_progress, clamp. fold (percentage g).
  rewrite Math_min_100. generalize (percentage g). intros x H.
  rewrite lit_0 in *.
  destruct x as [s| s| |s m e].
  - destruct s; [right|left]; rewrite lit_100; split; reflexivity.
  - destruct s; [discriminate H|]. left. rewrite lit_100. reflexivity.
  - left. reflexivity.
  - destruct s; [discriminate H|]. left.
    destruct (lt (lit 100) _); [rewrite lit_100|]; reflexivity.
Qed.

(** C1 (as amended).  [getProgress] clamps from above only.  Where
    [current/target*100] is not below 0 it equals
    [clamp(current/target*100, 0, 100)] (up to the sign of a zero), where
    it is below 0 it returns that negative value unchanged, it never
    exceeds 100, and [current=50, target=200] gives 25 while
    [current=250, target=200] gives 100. *)
Theorem getProgress_clamps_above :
  (forall g, lt (percentage g) (lit 0) = false ->
             getProgress g = spec_progress g \/
             (getProgress g = neg_zero /\ spec_progress g = pos_zero)) /\
  (forall g, lt (percentage g) (lit 0) = true ->
             getProgress g = percentage g) /\
  (forall g, lt (lit 100) (getProgress g) = false) /\
  getProgress (goal_of (lit 50) (lit 200)) = lit 25 /\
  getProgress (goal_of (lit 250) (lit 200)) = lit 100.
Proof.
  split; [exact getProgress_nonnegative|].
  split; [intros g H; exact (proj1 (getProgress_negative g H))|].
  split; [exact getProgress_upper|].
  split; vm_compute; reflexivity.
Qed.

Lemma getProgress_clamps_above_witness :
  lt (percentage (goal_of (lit 50) (lit 200))) (lit 0) = false /\
  (getProgress (goal_of (lit 50) (lit 200))
   = spec_progress (goal_of (lit 50) (lit 200)) \/
   (getProgress (goal_of (lit 50) (lit 200)) = neg_zero /\
    spec_progress (goal_of (lit 50) (lit 200)) = pos_zero)).
Proof.
  split.
  - vm_compute. reflexivity.
  - apply (proj1 getProgress_clamps_above). vm_compute. reflexivity.
Defined.

(** C1 as stated fails: with [current=-50, target=200] the code returns
    -25, which is below 0 and is not [clamp(-25, 0, 100) = 0]. *)
Lemma getProgress_below_zero :
  getProgress (goal_of (lit (-50)) (lit 200)) = lit (-25) /\
  spec_progress (goal_of (lit (-50)) (lit 200)) = lit 0 /\
  getProgress (goal_of (lit (-50)) (lit 200))
    <> spec_progress (goal_of (lit (-50)) (lit 200)) /\
  lt (getProgress (goal_of (lit (-50)) (lit 200))) (lit 0) = true.
Proof.
  repeat split; try (vm_compute; reflexivity).
  vm_compute. discriminate.
Qed.

(** C2.  With a zero target and a positive current value the division
    yields an infinity, not an exception, and [getProgress] returns a
    definite number: 100 for the target [0] (what a stored decimal 0
    reads as), [-Infinity] for the target [-0]. *)
Theorem getProgress_zero_target (g : Goal) (s : bool) :
  target_value g = S754_zero s ->
  lt (lit 0) (current_value g) = true ->
  getProgress g = if s then NegInfinity else lit 100.
Proof.
  destruct g as [t c a]. cbn [target_value current_value]. intros -> Hc.
  unfold getProgress. cbn [target_value current_value].
  rewrite lit_0 in Hc. rewrite lit_100.
  destruct c as [sc| sc| |sc m e]; try discriminate Hc.
  - destruct sc; [discriminate Hc|]. destruct s; reflexivity.
  - destruct sc; [discriminate Hc|]. destruct s; reflexivity.
Qed.

(** Decimal data: 22.5 of 90 is 25 percent. *)
Example getProgress_decimal :
  getProgress (goal_of (ratio 45 2) (lit 90)) = lit 25.
Proof. vm_compute. reflexivity. Qed.

Lemma getProgress_zero_target_witness :
  getProgress (goal_of (lit 5) (lit 0)) = lit 100.
Proof.
  apply (getProgress_zero_target (goal_of (lit 5) (lit 0)) false).
  - reflexivity.
  - vm_compute. reflexivity.
Defined.

End GoalsFacts.

(* ================================================================== *)
(** * Properties of the workout form: the list of exercises *)
(* ================================================================== *)

Section FormFacts.
Import Js WorkoutForm Sample.

Lemma length_replace_at (arr : jsarray) (i : nat) (v : number) :
  length (replace_at arr i v) = length arr.
Proof.
  revert i. induction arr as [|hd tl IH]; intros [|i]; simpl; auto.
Qed.

(** Writing at an index the array already has keeps its length. *)
Lemma length_set_index (arr : jsarray) (i : nat) (v : number) :
  (i < length arr)%nat -> length (set_index arr i v) = length arr.
Proof.
  intros H. unfold set_index.
  destruct (Nat.ltb i (length arr)) eqn:E.
  - apply length_replace_at.
  - apply Nat.ltb_ge in E. lia.
Qed.

(** Writing beyond the end makes the array [i + 1] long. *)
Lemma length_set_index_beyond (arr : jsarray) (i : nat) (v : number) :
  (length arr <= i)%nat -> length (set_index arr i v) = S i.
Proof.
  intros H. unfold set_index.
  destruct (Nat.ltb i (length arr)) eqn:E.
  - apply Nat.ltb_lt in E. lia.
  - rewrite !length_app, repeat_length. simpl. lia.
Qed.

Lemma length_push (arr : jsarray) (v : number) :
  length (push arr v) = S (length arr).
Proof. unfold push. rewrite length_app. simpl. lia. Qed.

Lemma length_pop (arr : jsarray) : length (pop arr) = pred (length arr).
Proof.
  unfold pop. induction arr as [|a [|b tl] IH]; simpl in *; auto.
Qed.

Lemma last_elem_snoc (l : jsarray) (v : option number) :
  last_elem (l ++ [v]) = v.
Proof.
  unfold last_elem, get. rewrite length_app. simpl length.
  rewrite Nat.add_1_r. rewrite nth_error_app2 by lia.
  rewrite Nat.sub_diag. reflexivity.
Qed.

Lemma nth_error_put_same (ws : list WorkoutExercise) (i : nat) e e' :
  nth_error ws i = Some e -> nth_error (put ws i e') i = Some e'.
Proof.
  revert i. induction ws as [|hd tl IH]; intros [|i] H; simpl in *;
    try discriminate; auto.
Qed.

Lemma nth_error_put_other (ws : list WorkoutExercise) (i j : nat) e' :
  i <> j -> nth_error (put ws i e') j = nth_error ws j.
Proof.
  revert i j. induction ws as [|hd tl IH]; intros [|i] [|j] H; simpl;
    try reflexivity; try congruence.
  apply IH. congruence.
Qed.

Lemma length_put (ws : list WorkoutExercise) (i : nat) e' :
  length (put ws i e') = length ws.
Proof.
  revert i. induction ws as [|hd tl IH]; intros [|i]; simpl; auto.
Qed.

Lemma Forall_put (P : WorkoutExercise -> Prop) ws i e' :
  Forall P ws -> P e' -> Forall P (put ws i e').
Proof.
  intros H He. revert i.
  induction H as [|hd tl Hhd Htl IH]; intros [|i]; simpl; auto.
Qed.

Lemma Forall_nth_error (P : WorkoutExercise -> Prop) ws i e :
  Forall P ws -> nth_error ws i = Some e -> P e.
Proof.
  intros H Hn. rewrite Forall_forall in H. apply H.
  eapply nth_error_In; eauto.
Qed.

Lemma setWorkoutExercises_same (st : form) :
  setWorkoutExercises (workoutExercises st) st = st.
Proof. destruct st; reflexivity. Qed.

(** ** Each handler keeps an entry well formed *)

Lemma newWorkoutExercise_well_formed (exercise : Exercise) :
  well_formed (newWorkoutExercise exercise).
Proof. unfold well_formed. simpl. lia. Qed.

Lemma addSet_entry_well_formed (e : WorkoutExercise) :
  well_formed e -> well_formed (addSet_entry e).
Proof.
  unfold well_formed, addSet_entry. simpl. rewrite !length_push. lia.
Qed.

Lemma removeSet_entry_well_formed (e : WorkoutExercise) :
  well_formed e -> 1 < sets e -> well_formed (removeSet_entry e).
Proof.
  unfold well_formed, removeSet_entry. simpl. rewrite !length_pop. lia.
Qed.

Lemma with_reps_well_formed (e : WorkoutExercise) (j : nat) (v : number) :
  well_formed e -> Z.of_nat j < sets e ->
  well_formed (with_reps e (set_index (reps e) j v)).
Proof.
  unfold well_formed, with_reps. simpl. intros (Hr & Hw & Hs) Hj.
  rewrite length_set_index by lia. auto.
Qed.

Lemma with_weight_well_formed (e : WorkoutExercise) (j : nat) (v : number) :
  well_formed e -> Z.of_nat j < sets e ->
  well_formed (with_weight e (set_index (weight e) j v)).
Proof.
  unfold well_formed, with_weight. simpl. intros (Hr & Hw & Hs) Hj.
  rewrite length_set_index by lia. auto.
Qed.

Lemma step_well_formed (st : form) (a : action) :
  Forall well_formed (workoutExercises st) -> within_sets st a ->
  Forall well_formed (workoutExercises (step a st)).
Proof.
  intros Inv Ha. destruct a as [ex|i|i|i j f v]; simpl in *.
  - apply Forall_app. split; [exact Inv|].
    constructor; [apply newWorkoutExercise_well_formed | constructor].
  - unfold addSet. destruct (nth_error _ i) as [e|] eqn:E; simpl; [|exact Inv].
    apply Forall_put; [exact Inv|].
    apply addSet_entry_well_formed. eapply Forall_nth_error; eauto.
  - unfold removeSet. destruct (nth_error _ i) as [e|] eqn:E; simpl; [|exact Inv].
    destruct (1 <? sets e) eqn:L; simpl; [|exact Inv].
    apply Z.ltb_lt in L. apply Forall_put; [exact Inv|].
    apply removeSet_entry_well_formed; [|exact L].
    eapply Forall_nth_error; eauto.
  - unfold updateSetData. destruct (nth_error _ i) as [e|] eqn:E; [|exact Inv].
    pose proof (Ha e eq_refl) as Hj.
    assert (We : well_formed e) by (eapply Forall_nth_error; eauto).
    destruct f; simpl; apply Forall_put; auto.
    + apply with_reps_well_formed; assumption.
    + apply with_weight_well_formed; assumption.
Qed.

Lemma reachable_well_formed (today : string) (st : form) :
  reachable today st -> Forall well_formed (workoutExercises st).
Proof.
  induction 1 as [|st a _ IH Ha].
  - constructor.
  - apply step_well_formed; assumption.
Qed.

Lemma removeSet_single (i : nat) (ws : list WorkoutExercise) e :
  nth_error ws i = Some e -> sets e <= 1 -> removeSet i ws = Some ws.
Proof.
  intros E H. unfold removeSet. rewrite E.
  destruct (1 <? sets e) eqn:L; [apply Z.ltb_lt in L; lia | reflexivity].
Qed.

(** C3.  In every state the form reaches from the empty form by
    [addExercise], [addSet], [removeSet] and [updateSetData] (the last one
    on a set index the entry has, as the rendered inputs give it), every
    entry has [reps] and [weight] arrays as long as its [sets], and [sets]
    is at least 1; [removeSet] on an entry whose [sets] is 1 leaves the
    state as it is. *)
Theorem workout_exercises_stay_parallel (today : string) (st : form) :
  reachable today st ->
  Forall (fun e => Z.of_nat (length (reps e)) = sets e /\
                   Z.of_nat (length (weight e)) = sets e /\
                   1 <= sets e)
         (workoutExercises st) /\
  (forall i e, nth_error (workoutExercises st) i = Some e -> sets e = 1 ->
               removeSet i (workoutExercises st) = Some (workoutExercises st) /\
               step (RemoveSet i) st = st).
Proof.
  intros R. split.
  - exact (reachable_well_formed today st R).
  - intros i e E H.
    assert (Hr : removeSet i (workoutExercises st) = Some (workoutExercises st))
      by (apply (removeSet_single i _ e E); lia).
    split; [exact Hr|].
    simpl. rewrite Hr. simpl. apply setWorkoutExercises_same.
Qed.

Lemma workout_exercises_stay_parallel_witness :
  let st := step (RemoveSet 0)
              (step (RemoveSet 0)
                 (step (UpdateSetData 0 3 Weight (lit 40))
                    (step (AddSet 0)
                       (step (AddExercise pushups) (empty_form "2025-09-15"))))) in
  Forall well_formed (workoutExercises st).
Proof.
  intros st.
  refine (proj1 (workout_exercises_stay_parallel "2025-09-15" st _)).
  unfold st.
  apply reach_step; [apply reach_step; [apply reach_step;
    [apply reach_step; [apply reach_step; [apply reach_empty|]|]|]|]|].
  - exact I.
  - exact I.
  - intros e E. injection E as <-. reflexivity.
  - exact I.
  - exact I.
Defined.

(** Why the range of [setIndex] matters: written past the end, the array
    grows while [sets] stays. *)
Example updateSetData_past_the_end :
  option_map (map (fun e => (sets e, length (reps e))))
    (updateSetData 0 5 Reps (lit 12) [newWorkoutExercise pushups])
  = Some [(3, 6%nat)].
Proof. reflexivity. Qed.

(** C7.  [addExercise] appends one entry with [sets = 3],
    [reps = [10, 10, 10]] and [weight = [0, 0, 0]] for the picked
    exercise; the entries that were there stay as they were, in place. *)
Theorem addExercise_appends_seeded_entry (exercise : Exercise) (st : form) :
  let before := workoutExercises st in
  let after := workoutExercises (addExercise exercise st) in
  exists e,
    after = before ++ [e] /\
    firstn (length before) after = before /\
    nth_error after (length before) = Some e /\
    length after = S (length before) /\
    exercise_id e = id exercise /\
    exercise_name e = name exercise /\
    sets e = 3 /\
    reps e = [Some (lit 10); Some (lit 10); Some (lit 10)] /\
    weight e = [Some (lit 0); Some (lit 0); Some (lit 0)].
Proof.
  intros before after. exists (newWorkoutExercise exercise).
  assert (E : after = before ++ [newWorkoutExercise exercise]) by reflexivity.
  rewrite E. repeat split.
  - rewrite firstn_app, Nat.sub_diag, firstn_all. simpl. apply app_nil_r.
  - rewrite nth_error_app2 by lia. rewrite Nat.sub_diag. reflexivity.
  - rewrite length_app. simpl. lia.
Qed.

(** C10.  [addSet] on the entry at [exerciseIndex] adds 1 to [sets] and
    pushes one value on each array: a copy of the array's last element
    when that element is truthy, and the placeholder (10 for reps, 0 for
    weight) exactly in the other cases, an empty array or a last element
    that is falsy ([0], [NaN]) or missing.  Other entries are untouched. *)
Theorem addSet_repeats_last_set (i : nat) (ws : list WorkoutExercise)
        (e : WorkoutExercise) :
  nth_error ws i = Some e ->
  exists ws' r w,
    addSet i ws = Some ws' /\
    nth_error ws' i =
      Some (mkWorkoutExercise (we_id e) (exercise_id e) (exercise_name e)
              (sets e + 1) (reps e ++ [Some r]) (weight e ++ [Some w])
              (rest_seconds e) (notes e)) /\
    (forall j, j <> i -> nth_error ws' j = nth_error ws j) /\
    (forall l x, reps e = l ++ [Some x] -> truthy x = true -> r = x) /\
    (forall l x, reps e = l ++ [Some x] -> truthy x = false -> r = lit 10) /\
    (forall l, reps e = l ++ [None] -> r = lit 10) /\
    (reps e = [] -> r = lit 10) /\
    (forall l x, weight e = l ++ [Some x] -> truthy x = true -> w = x) /\
    (forall l x, weight e = l ++ [Some x] -> truthy x = false -> w = lit 0) /\
    (forall l, weight e = l ++ [None] -> w = lit 0) /\
    (weight e = [] -> w = lit 0).
Proof.
  intros E.
  exists (put ws i (addSet_entry e)),
         (or_default (last_elem (reps e)) (lit 10)),
         (or_default (last_elem (weight e)) (lit 0)).
  split; [unfold addSet; rewrite E; reflexivity|].
  split; [apply (nth_error_put_same ws i e _ E)|].
  split; [intros j Hj; apply nth_error_put_other; congruence|].
  repeat split.
  - intros l x -> T. rewrite last_elem_snoc. simpl. rewrite T. reflexivity.
  - intros l x -> T. rewrite last_elem_snoc. simpl. rewrite T. reflexivity.
  - intros l ->. rewrite last_elem_snoc. reflexivity.
  - intros ->. reflexivity.
  - intros l x -> T. rewrite last_elem_snoc. simpl. rewrite T. reflexivity.
  - intros l x -> T. rewrite last_elem_snoc. simpl. rewrite T. reflexivity.
  - intros l ->. rewrite last_elem_snoc. reflexivity.
  - intros ->. reflexivity.
Qed.

Lemma addSet_repeats_last_set_witness :
  exists ws' r w,
    addSet 0 [twelve_reps] = Some ws' /\
    nth_error ws' 0 =
      Some (mkWorkoutExercise None "e-1" "Push-ups" 3
              [Some (lit 10); Some (lit 12); Some r]
              [Some (lit 20); Some (lit 0); Some w] 60 EmptyString) /\
    r = lit 12 /\ w = lit 0.
Proof.
  destruct (addSet_repeats_last_set 0 [twelve_reps] twelve_reps eq_refl)
    as (ws' & r & w & H1 & H2 & _ & Hr & _ & _ & _ & _ & Hw & _).
  exists ws', r, w. split; [exact H1|]. split; [exact H2|]. split.
  - apply (Hr [Some (lit 10)] (lit 12)); reflexivity.
  - apply (Hw [Some (lit 20)] (lit 0)); reflexivity.
Defined.

End FormFacts.

(* ================================================================== *)
(** * Properties of the exercise picker *)
(* ================================================================== *)

Section PickerFacts.
Import WorkoutForm Sample.

Lemma startsWith_spec (s p : string) :
  startsWith s p = true <-> exists post, s = (p ++ post)%string.
Proof.
  revert s. induction p as [|b p IH]; intros s; simpl.
  - split; [intros _; exists s; reflexivity | destruct s; reflexivity].
  - destruct s as [|a s].
    + split; [discriminate | intros (post & H); discriminate H].
    + simpl. rewrite andb_true_iff, Ascii.eqb_eq, IH. split.
      * intros (-> & post & ->). exists post. reflexivity.
      * intros (post & H). injection H as -> ->. split; [reflexivity|].
        exists post. reflexivity.
Qed.

(** [includes] is substring containment. *)
Lemma includes_spec (s t : string) : includes s t = true <-> contains s t.
Proof.
  unfold contains. induction s as [|a s IH].
  - cbn [includes]. rewrite orb_false_r, startsWith_spec. split.
    + intros (post & H). exists EmptyString, post. exact H.
    + intros ([|c pre] & post & H); [exists post; exact H | discriminate H].
  - cbn [includes]. rewrite orb_true_iff, startsWith_spec, IH. split.
    + intros [(post & H) | (pre & post & H)].
      * exists EmptyString, post. exact H.
      * exists (String a pre), post. simpl. rewrite H. reflexivity.
    + intros ([|c pre] & post & H).
      * left. exists post. exact H.
      * right. simpl in H. injection H as _ H. exists pre, post. exact H.
Qed.

(** C8.  An exercise of the fetched catalog is listed by the picker exactly
    when the lower-cased search term occurs as a substring in its
    lower-cased name or in its lower-cased category. *)
Theorem filteredExercises_substring_match
        (toLowerCase : string -> string) (st : form) (e : Exercise) :
  In e (exercises st) ->
  (In e (filteredExercises toLowerCase st) <->
   contains (toLowerCase (name e)) (toLowerCase (searchTerm st)) \/
   contains (toLowerCase (category e)) (toLowerCase (searchTerm st))).
Proof.
  intros Hin. unfold filteredExercises, matches.
  rewrite filter_In, orb_true_iff, !includes_spec. tauto.
Qed.

Lemma filteredExercises_substring_match_witness :
  let st := setSearchTerm "BODY"
              (mkForm "Monday" "2025-09-15" 45 EmptyString [pushups; deadlift] []
                      true EmptyString false) in
  In pushups (filteredExercises ascii_toLowerCase st) /\
  ~ In deadlift (filteredExercises ascii_toLowerCase st).
Proof.
  intros st. split.
  - apply (filteredExercises_substring_match ascii_toLowerCase st pushups).
    + left. reflexivity.
    + right. exists EmptyString, "weight". reflexivity.
  - vm_compute. intros [H|[]]. discriminate H.
Defined.

End PickerFacts.

(* ================================================================== *)
(** * Properties of saving a workout *)
(* ================================================================== *)

Section SaveFacts.
Import Proc WorkoutForm Sample.

Lemma rows_of_after_delete (w : Store.uuid) (l : list Store.workout_exercise_row) :
  filter (fun r => String.eqb (Store.workout_id r) w)
         (filter (fun r => negb (String.eqb (Store.workout_id r) w)) l) = [].
Proof.
  induction l as [|r l IH]; simpl; [reflexivity|].
  destruct (String.eqb (Store.workout_id r) w) eqn:E; simpl; [exact IH|].
  rewrite E. exact IH.
Qed.

(** In update mode the requests of one save are an initial part of
    update, delete, insert, in this order. *)
Lemma handleSave_update_requests rejects gen (w : Store.workout_row)
      (user : Store.uuid) (st : form) (d : Store.db) :
  let U := Store.UpdateWorkout (Store.id w) (fields_of st) in
  let D := Store.DeleteWorkoutExercises (Store.id w) in
  let I := Store.InsertWorkoutExercises
             (exerciseInserts (Store.id w) (workoutExercises st)) in
  exists k,
    requests (fst (run (Store.serve rejects gen) (handleSave (Some w) user st) d))
    = firstn k [U; D; I].
Proof.
  intros U D I. unfold handleSave.
  destruct (is_empty (trim (f_name st))); [exists 0%nat; reflexivity|].
  cbn [run]. fold U. unfold Store.serve at 1.
  destruct (rejects U); cbn -[exerciseInserts]; [exists 1%nat; reflexivity|].
  fold D. unfold Store.serve at 1.
  destruct (rejects D); cbn -[exerciseInserts]; [exists 2%nat; reflexivity|].
  unfold insert_exercises.
  destruct (Nat.ltb 0 (length (workoutExercises st)));
    cbn -[exerciseInserts]; [|exists 2%nat; reflexivity].
  fold I. unfold Store.serve at 1.
  destruct (rejects I); cbn -[exerciseInserts]; exists 3%nat; reflexivity.
Qed.

(** C4.  In update mode the delete of the workout's exercise rows is
    issued before the insert of the in-memory rows, and nothing follows the
    insert.  When update and delete succeed and the insert is rejected, the
    run consists of exactly these three requests (no compensating write),
    the page shows the alert and never calls [onSave], and the store is
    left with no exercise row for the workout. *)
Theorem handleSave_delete_then_insert rejects gen (w : Store.workout_row)
        (user : Store.uuid) (st : form) (d : Store.db) :
  let U := Store.UpdateWorkout (Store.id w) (fields_of st) in
  let D := Store.DeleteWorkoutExercises (Store.id w) in
  let I := Store.InsertWorkoutExercises
             (exerciseInserts (Store.id w) (workoutExercises st)) in
  let out := run (Store.serve rejects gen) (handleSave (Some w) user st) d in
  (forall rows pre post,
      requests (fst out) = pre ++ Store.InsertWorkoutExercises rows :: post ->
      In D pre /\ post = [] /\
      rows = exerciseInserts (Store.id w) (workoutExercises st)) /\
  (is_empty (trim (f_name st)) = false ->
   workoutExercises st <> [] ->
   rejects U = false -> rejects D = false -> rejects I = true ->
   requests (fst out) = [U; D; I] /\
   effects (fst out) = [SetLoading true;
                        ConsoleError "Error saving workout:";
                        Alert "Error saving workout. Please try again.";
                        SetLoading false] /\
   Store.rows_of (Store.id w) (snd out) = []).
Proof.
  intros U D I out. split.
  - intros rows pre post H.
    destruct (handleSave_update_requests rejects gen w user st d) as (k & Hk).
    fold U D I out in Hk. rewrite Hk in H. clear Hk.
    destruct k as [|[|[|k]]]; simpl in H.
    + destruct pre; discriminate H.
    + destruct pre as [|a [|b pre]]; discriminate H.
    + destruct pre as [|a [|b [|c pre]]]; discriminate H.
    + rewrite firstn_nil in H.
      destruct pre as [|a [|b [|c [|c' pre]]]]; try discriminate H.
      simpl in H. injection H as <- <- HI <-.
      split; [right; left; reflexivity|]. split; [reflexivity|].
      symmetry. exact HI.
  - intros Hname Hws HU HD HI.
    assert (Hlen : Nat.ltb 0 (length (workoutExercises st)) = true)
      by (destruct (workoutExercises st); [congruence | reflexivity]).
    assert (Eout : out = run (Store.serve rejects gen)
                             (handleSave (Some w) user st) d) by reflexivity.
    clearbody out. subst U D I.
    unfold handleSave, insert_exercises in Eout.
    rewrite Hname, Hlen in Eout. cbn [run] in Eout.
    unfold Store.serve at 1 in Eout. rewrite HU in Eout.
    cbn -[fields_of exerciseInserts] in Eout.
    unfold Store.serve at 1 in Eout. rewrite HD in Eout.
    cbn -[fields_of exerciseInserts] in Eout.
    unfold Store.serve at 1 in Eout. rewrite HI in Eout.
    cbn -[fields_of exerciseInserts] in Eout.
    rewrite Eout. cbn -[fields_of exerciseInserts].
    repeat split. apply rows_of_after_delete.
Qed.

Lemma handleSave_delete_then_insert_witness :
  let out := run (Store.serve rejects_exercise_inserts next_uuid)
                 (handleSave (Some leg_day) "u-1" editing) stored in
  length (Store.rows_of "w-1" stored) = 2%nat /\
  requests (fst out) =
    [Store.UpdateWorkout "w-1" (fields_of editing);
     Store.DeleteWorkoutExercises "w-1";
     Store.InsertWorkoutExercises (exerciseInserts "w-1" [twelve_reps])] /\
  Store.rows_of "w-1" (snd out) = [].
Proof.
  intros out. split; [reflexivity|].
  destruct (proj2 (handleSave_delete_then_insert rejects_exercise_inserts
                     next_uuid leg_day "u-1" editing stored))
    as (Hr & _ & Hrows); try reflexivity.
  - discriminate.
  - split; [exact Hr | exact Hrows].
Defined.

End SaveFacts.

(* ================================================================== *)
(** * Properties of the calendar *)
(* ================================================================== *)

Section DateFacts.
Import Date.

Lemma holds_on_spec (f : Z -> bool) (n : positive) :
  forall lo, holds_on f n lo = true ->
             forall x, lo <= x < lo + Zpos n -> f x = true.
Proof.
  induction n as [p IH|p IH|]; simpl; intros lo H x Hx.
  - rewrite !andb_true_iff in H. destruct H as ((H0 & H1) & H2).
    destruct (Z.eq_dec x lo) as [->|Hne]; [exact H0|].
    destruct (Z_lt_le_dec x (lo + 1 + Zpos p)).
    + apply (IH _ H1). lia.
    + apply (IH _ H2). lia.
  - rewrite andb_true_iff in H. destruct H as (H1 & H2).
    destruct (Z_lt_le_dec x (lo + Zpos p)).
    + apply (IH _ H1). lia.
    + apply (IH _ H2). lia.
  - assert (x = lo) by lia. subst x. exact H.
Qed.

Lemma era_days_ok : holds_on doe_ok 146097 0 = true.
Proof. vm_compute. reflexivity. Qed.

Lemma doe_ok_all (doe : Z) : 0 <= doe < 146097 -> doe_ok doe = true.
Proof.
  intros H. apply (holds_on_spec doe_ok 146097 0 era_days_ok). lia.
Qed.

(** The date of a day leads back to that day, and its month is a month. *)
Lemma civil_from_days_inv (z : Z) :
  days_from_civil (fst (fst (civil_from_days z))) (snd (fst (civil_from_days z))) 1
  + snd (civil_from_days z) - 1 = z /\
  1 <= snd (fst (civil_from_days z)) <= 12.
Proof.
  unfold civil_from_days.
  set (z' := z + 719468).
  set (era := z' / 146097). set (doe := z' mod 146097).
  assert (Hdoe : 0 <= doe < 146097) by (apply Z.mod_pos_bound; lia).
  assert (Hz : z' = 146097 * era + doe) by (apply Z.div_mod; lia).
  pose proof (doe_ok_all doe Hdoe) as Ok. unfold doe_ok in Ok.
  set (yoe := (doe - doe / 1460 + doe / 36524 - doe / 146096) / 365) in *.
  set (doy := doe - (365 * yoe + yoe / 4 - yoe / 100)) in *.
  set (mp := (5 * doy + 2) / 153) in *.
  set (d := doy - (153 * mp + 2) / 5 + 1) in *.
  set (m := if mp <? 10 then mp + 3 else mp - 9) in *.
  cbn [fst snd].
  rewrite !andb_true_iff in Ok. destruct Ok as ((((Y0 & Y1) & M1) & M12) & E).
  apply Z.leb_le in Y0, M1, M12. apply Z.ltb_lt in Y1. apply Z.eqb_eq in E.
  split; [|lia].
  unfold days_from_civil.
  assert (Hy : (if m <=? 2 then (if m <=? 2 then yoe + era * 400 + 1
                                 else yoe + era * 400) - 1
                else (if m <=? 2 then yoe + era * 400 + 1 else yoe + era * 400))
               = yoe + era * 400) by (destruct (m <=? 2); lia).
  rewrite Hy.
  rewrite Z.div_add by lia. rewrite Z.mod_add by lia.
  rewrite Z.div_small by lia. rewrite Z.mod_small by lia.
  lia.
Qed.

(** [d.setDate(d.getDate() + k)] moves the local time by [k] whole days,
    across month and year ends. *)
Lemma setDate_getDate (LocalTZA : Z -> bool -> Z) (t k : Z) :
  setDate LocalTZA t (getDate LocalTZA t + k)
  = UTC LocalTZA (LocalTime LocalTZA t + k * msPerDay).
Proof.
  unfold setDate, getDate, YearFromTime, MonthFromTime, DateFromTime, MakeDay.
  set (lt := LocalTime LocalTZA t).
  destruct (civil_from_days_inv (Day lt)) as (E & M).
  set (y := fst (fst (civil_from_days (Day lt)))) in *.
  set (m := snd (fst (civil_from_days (Day lt)))) in *.
  set (d := snd (civil_from_days (Day lt))) in *.
  rewrite Z.div_small by lia. rewrite Z.mod_small by lia.
  replace (y + 0) with y by lia. replace (m - 1 + 1) with m by lia.
  f_equal. unfold MakeDate, TimeWithinDay.
  replace (days_from_civil y m 1 + (d + k) - 1) with (Day lt + k) by lia.
  unfold Day. pose proof (Z.div_mod lt msPerDay) as H.
  unfold msPerDay in *. lia.
Qed.

End DateFacts.

(* ================================================================== *)
(** * Properties of the dashboard *)
(* ================================================================== *)

Section DashboardFacts.
Import Proc Date Dashboard Sample.

(** ** Total minutes *)

Lemma fold_left_minutes (l : list Workout) (a : Z) :
  fold_left (fun sum w => sum + or0 (duration_minutes w)) l a
  = a + sum_of (map minutes l).
Proof.
  revert a. induction l as [|w l IH]; intros a; simpl.
  - lia.
  - rewrite IH. unfold minutes. lia.
Qed.

Lemma sum_minutes_is_sum (W : list Workout) :
  sum_minutes (Some W) = sum_of (map minutes W).
Proof. unfold sum_minutes. simpl. rewrite fold_left_minutes. lia. Qed.

(** ** One load, case by case *)

Section OneLoad.
Variable LocalTZA : Z -> bool -> Z.
Variable answer : query -> response.
Variable user : uuid.
Variable now : Z.
Variable st : state.

Lemma load_workouts_failed e :
  error (answer (SelectWorkouts user)) = Some e ->
  load LocalTZA answer user now st
  = mkState (stats st) (recentWorkouts st) false (logged st).
Proof.
  intros H. unfold load, loadDashboardData. cbn [run serve].
  rewrite H. reflexivity.
Qed.

Lemma load_goals_failed e :
  error (answer (SelectWorkouts user)) = None ->
  error (answer (SelectActiveGoals user)) = Some e ->
  load LocalTZA answer user now st
  = mkState (stats st) (recentWorkouts st) false (logged st).
Proof.
  intros H1 H2. unfold load, loadDashboardData. cbn [run serve].
  rewrite H1. cbn [run serve]. rewrite H2. reflexivity.
Qed.

Lemma load_recent_failed e :
  error (answer (SelectWorkouts user)) = None ->
  error (answer (SelectActiveGoals user)) = None ->
  error (answer (SelectRecentWorkouts user)) = Some e ->
  load LocalTZA answer user now st
  = mkState (fresh_stats LocalTZA answer user now) (recentWorkouts st)
            false (logged st).
Proof.
  intros H1 H2 H3. unfold load, loadDashboardData. cbn [run serve].
  rewrite H1. cbn [run serve]. rewrite H2.
  cbn [run serve]. rewrite H3. reflexivity.
Qed.

Lemma load_succeeded :
  error (answer (SelectWorkouts user)) = None ->
  error (answer (SelectActiveGoals user)) = None ->
  error (answer (SelectRecentWorkouts user)) = None ->
  load LocalTZA answer user now st
  = mkState (fresh_stats LocalTZA answer user now)
            (formattedRecent (recent_of (answer (SelectRecentWorkouts user))))
            false (console st).
Proof.
  intros H1 H2 H3. unfold load, loadDashboardData. cbn [run serve].
  rewrite H1. cbn [run serve]. rewrite H2.
  cbn [run serve]. rewrite H3. reflexivity.
Qed.

(** Once the first two fetches succeed the stats are the fresh ones,
    whatever the third does. *)
Lemma load_stats_fresh :
  error (answer (SelectWorkouts user)) = None ->
  error (answer (SelectActiveGoals user)) = None ->
  stats (load LocalTZA answer user now st) = fresh_stats LocalTZA answer user now.
Proof.
  intros H1 H2. destruct (error (answer (SelectRecentWorkouts user))) as [e|] eqn:H3.
  - rewrite (load_recent_failed e H1 H2 H3). reflexivity.
  - rewrite (load_succeeded H1 H2 H3). reflexivity.
Qed.

End OneLoad.

(** C6.  After a load whose workouts fetch returned the list [W] (and whose
    goals fetch did not fail), the [totalMinutes] stat is the sum of the
    [duration_minutes] of the workouts of [W]; it is 0 when [W] is empty. *)
Theorem totalMinutes_is_sum_of_durations
        (LocalTZA : Z -> bool -> Z) (answer : query -> response)
        (user : uuid) (now : Z) (st : state) (W : list Workout) :
  error (answer (SelectWorkouts user)) = None ->
  workouts_of (answer (SelectWorkouts user)) = Some W ->
  error (answer (SelectActiveGoals user)) = None ->
  totalMinutes (stats (load LocalTZA answer user now st))
  = sum_of (map minutes W) /\
  (W = [] -> totalMinutes (stats (load LocalTZA answer user now st)) = 0).
Proof.
  intros H1 HW H2.
  assert (E : totalMinutes (stats (load LocalTZA answer user now st))
              = sum_of (map minutes W)).
  { rewrite (load_stats_fresh LocalTZA answer user now st H1 H2).
    unfold fresh_stats, compute_stats. cbn [totalMinutes]. rewrite HW.
    apply sum_minutes_is_sum. }
  split; [exact E|]. intros ->. exact E.
Qed.

Lemma totalMinutes_is_sum_of_durations_witness :
  totalMinutes (stats (load utc answers "u-1" monday_noon initial)) = 75.
Proof.
  apply (proj1 (totalMinutes_is_sum_of_durations utc answers "u-1" monday_noon
                  initial fetched eq_refl eq_refl eq_refl)).
Defined.

(** C9 (as amended).  A failed fetch is logged once and nothing else of
    it reaches the state.  When the workouts fetch or the goals fetch fails
    the stats keep their previous value; when only the recent-workouts
    fetch fails the stats have already been replaced by the values
    computed from the two fetches that succeeded, and the list of recent
    workouts keeps its previous value. *)
Theorem load_failure_logged_stats_old_or_fresh
        (LocalTZA : Z -> bool -> Z) (answer : query -> response)
        (user : uuid) (now : Z) (st : state) :
  let st' := load LocalTZA answer user now st in
  (forall e,
     error (answer (SelectWorkouts user)) = Some e \/
     (error (answer (SelectWorkouts user)) = None /\
      error (answer (SelectActiveGoals user)) = Some e) ->
     stats st' = stats st /\ recentWorkouts st' = recentWorkouts st /\
     console st' = logged st /\ loading st' = false) /\
  (forall e,
     error (answer (SelectWorkouts user)) = None ->
     error (answer (SelectActiveGoals user)) = None ->
     error (answer (SelectRecentWorkouts user)) = Some e ->
     stats st' = fresh_stats LocalTZA answer user now /\
     recentWorkouts st' = recentWorkouts st /\
     console st' = logged st /\ loading st' = false).
Proof.
  intros st'. subst st'. split.
  - intros e [H1 | (H1 & H2)].
    + rewrite (load_workouts_failed LocalTZA answer user now st e H1).
      repeat split.
    + rewrite (load_goals_failed LocalTZA answer user now st e H1 H2).
      repeat split.
  - intros e H1 H2 H3.
    rewrite (load_recent_failed LocalTZA answer user now st e H1 H2 H3).
    repeat split.
Qed.

Lemma load_failure_logged_stats_old_or_fresh_witness :
  stats (load utc workouts_fail "u-1" monday_noon initial) = mkStats 0 0 0 0 /\
  console (load utc workouts_fail "u-1" monday_noon initial)
  = ["Error loading dashboard data:"].
Proof.
  destruct (proj1 (load_failure_logged_stats_old_or_fresh utc workouts_fail
                     "u-1" monday_noon initial) "timeout" (or_introl eq_refl))
    as (Hs & _ & Hc & _).
  split; [exact Hs | exact Hc].
Defined.

(** C9 as stated fails: the recent-workouts fetch fails, and yet the stats
    are no longer the zero-initialised ones. *)
Lemma load_recent_failure_changes_stats :
  error (recent_fails (SelectRecentWorkouts "u-1")) = Some "timeout" /\
  stats initial = mkStats 0 0 0 0 /\
  stats (load utc recent_fails "u-1" monday_noon initial) = mkStats 2 75 0 1 /\
  stats (load utc recent_fails "u-1" monday_noon initial) <> stats initial.
Proof.
  repeat split; try (vm_compute; reflexivity).
  vm_compute. discriminate.
Qed.

(** ** The weekly count *)

Lemma weekAgo_eq (LocalTZA : Z -> bool -> Z) (now : Z) :
  weekAgo LocalTZA now = UTC LocalTZA (LocalTime LocalTZA now - 7 * msPerDay).
Proof.
  unfold weekAgo.
  replace (getDate LocalTZA now - 7) with (getDate LocalTZA now + (-7)) by lia.
  rewrite setDate_getDate. f_equal; lia.
Qed.

Lemma in_week_iff (LocalTZA : Z -> bool -> Z) (now : Z) (w : Workout) :
  in_week LocalTZA now w = true <->
  exists t, parse (date w) = Some t /\
            UTC LocalTZA (LocalTime LocalTZA now - 7 * msPerDay) <= t.
Proof.
  unfold in_week. rewrite weekAgo_eq. destruct (parse (date w)) as [t|].
  - rewrite Z.leb_le. split.
    + intros H. exists t. split; [reflexivity | exact H].
    + intros (t' & E & H). injection E as ->. exact H.
  - split; [discriminate | intros (t & E & _); discriminate E].
Qed.

(** C5 (as amended).  The weekly count is the number of fetched workouts
    whose date, read as midnight UTC, is at or after [weekAgo], the instant
    with the same local wall-clock time seven calendar days before [now];
    the boundary is inclusive.  Where the zone offset is constant,
    [weekAgo] is [now] minus 7 days: a workout whose time value is exactly
    that is counted, one 8 days before [now] is not.  A workout whose
    calendar date is 8 days before today's local date is never counted;
    one whose calendar date is 7 days before today is counted only when the
    local time of day is at most the zone offset. *)
Theorem weekly_counts_from_weekAgo
        (LocalTZA : Z -> bool -> Z) (now : Z) (workouts : list Workout) :
  let boundary := UTC LocalTZA (LocalTime LocalTZA now - 7 * msPerDay) in
  let today := Day (LocalTime LocalTZA now) in
  let counted := filter (in_week LocalTZA now) workouts in
  weekly LocalTZA now (Some workouts) = len counted /\
  (forall w, In w counted <->
             In w workouts /\ exists t, parse (date w) = Some t /\ boundary <= t) /\
  ((forall t b, LocalTZA t b = LocalTZA 0 true) ->
   boundary = now - 7 * msPerDay /\
   (forall w, In w workouts -> parse (date w) = Some (now - 7 * msPerDay) ->
              In w counted) /\
   (forall w, parse (date w) = Some (now - 8 * msPerDay) -> ~ In w counted)) /\
  (forall w, LocalTZA (LocalTime LocalTZA now - 7 * msPerDay) false < msPerDay ->
             parse (date w) = Some (MakeDate (today - 8) 0) -> ~ In w counted) /\
  (forall w, In w workouts -> parse (date w) = Some (MakeDate (today - 7) 0) ->
             (In w counted <->
              TimeWithinDay (LocalTime LocalTZA now)
              <= LocalTZA (LocalTime LocalTZA now - 7 * msPerDay) false)).
Proof.
  intros boundary today counted.
  assert (C : forall w, In w counted <->
                        In w workouts /\
                        exists t, parse (date w) = Some t /\ boundary <= t).
  { intros w. unfold counted. rewrite filter_In, in_week_iff. reflexivity. }
  assert (L : LocalTime LocalTZA now
              = msPerDay * today + TimeWithinDay (LocalTime LocalTZA now))
    by (apply Z.div_mod; discriminate).
  assert (T : 0 <= TimeWithinDay (LocalTime LocalTZA now) < msPerDay)
    by (apply Z.mod_pos_bound; reflexivity).
  split; [reflexivity|]. split; [exact C|]. split; [|split].
  - intros Fixed.
    assert (B : boundary = now - 7 * msPerDay).
    { unfold boundary, UTC, LocalTime. rewrite (Fixed now true).
      rewrite (Fixed _ false). lia. }
    split; [exact B|]. split.
    + intros w Hin Hp. apply C. split; [exact Hin|].
      exists (now - 7 * msPerDay). split; [exact Hp | lia].
    + intros w Hp Hc. apply C in Hc. destruct Hc as (_ & t & E & Ht).
      rewrite Hp in E. injection E as <-. unfold msPerDay in *. lia.
  - intros w Hoff Hp Hc. apply C in Hc. destruct Hc as (_ & t & E & Ht).
    rewrite Hp in E. injection E as <-.
    unfold boundary, UTC, MakeDate in Ht. unfold msPerDay in *. lia.
  - intros w Hin Hp. rewrite C. unfold boundary, UTC. split.
    + intros (_ & t & E & Ht). rewrite Hp in E. injection E as <-.
      unfold MakeDate in Ht. unfold msPerDay in *. lia.
    + intros H. split; [exact Hin|]. exists (MakeDate (today - 7) 0).
      split; [exact Hp|]. unfold MakeDate. unfold msPerDay in *. lia.
Qed.

Lemma weekly_counts_from_weekAgo_witness :
  In (workout_on "2025-09-08" 45)
     (filter (in_week utc monday_midnight) [workout_on "2025-09-08" 45]).
Proof.
  destruct (weekly_counts_from_weekAgo utc monday_midnight
              [workout_on "2025-09-08" 45])
    as (_ & _ & Fixed & _).
  destruct (Fixed (fun t b => eq_refl)) as (_ & Inc & _).
  apply Inc; [left; reflexivity | vm_compute; reflexivity].
Defined.

(** C5 as stated fails.  On 2025-09-15 at 12:00 UTC a workout dated
    2025-09-08, seven days before today, is not counted.  And where the
    clocks went forward during the week (New York, 2025-03-12T00:00Z) a
    workout whose time value is exactly [now] minus 7 days is not counted
    either. *)
Lemma weekly_misses_seventh_day :
  (civil_from_days (Day monday_noon) = (2025, 9, 15) /\
   parse "2025-09-08" = Some (MakeDate (Day monday_noon - 7) 0) /\
   weekly utc monday_noon (Some [workout_on "2025-09-08" 45]) = 0) /\
  (parse "2025-03-05" = Some (march_midnight - 7 * msPerDay) /\
   weekly new_york march_midnight (Some [workout_on "2025-03-05" 45]) = 0).
Proof.
  repeat split; vm_compute; reflexivity.
Qed.

(** At UTC+05:30, at 03:00 local time on 2025-09-15, the workout dated
    2025-09-08 is counted: the time of day is below the zone offset. *)
Example weekly_counts_seventh_day_before_dawn :
  weekly ist 1757885400000 (Some [workout_on "2025-09-08" 45]) = 1.
Proof. vm_compute. reflexivity. Qed.

End DashboardFacts.

(* ================================================================== *)
(** * More properties of the workout form *)
(* ================================================================== *)

Section FormMoreFacts.
Import Js Proc WorkoutForm Sample.

Lemma filter_index_past (ws : list WorkoutExercise) :
  forall k index, (index < k)%nat -> filter_index k index ws = ws.
Proof.
  induction ws as [|e tl IH]; intros k index H; simpl; [reflexivity|].
  replace (Nat.eqb k index) with false by (symmetry; apply Nat.eqb_neq; lia).
  simpl. rewrite IH by lia. reflexivity.
Qed.

Lemma filter_index_spec (ws : list WorkoutExercise) :
  forall k index, (k <= index)%nat ->
  filter_index k index ws = firstn (index - k) ws ++ skipn (S (index - k)) ws.
Proof.
  induction ws as [|e tl IH]; intros k index H; simpl.
  - rewrite firstn_nil. reflexivity.
  - destruct (Nat.eqb k index) eqn:E; simpl.
    + apply Nat.eqb_eq in E. subst. rewrite Nat.sub_diag. simpl.
      apply filter_index_past. lia.
    + apply Nat.eqb_neq in E. rewrite IH by lia.
      replace (index - k)%nat with (S (index - S k)) by lia. reflexivity.
Qed.

Lemma Forall_filter_index (P : WorkoutExercise -> Prop) ws :
  forall k index, Forall P ws -> Forall P (filter_index k index ws).
Proof.
  induction ws as [|e tl IH]; intros k index H; simpl; [constructor|].
  inversion H; subst.
  destruct (negb (Nat.eqb k index)); [constructor|]; auto.
Qed.

Lemma removeExercise_eq (index : nat) (ws : list WorkoutExercise) :
  removeExercise index ws = firstn index ws ++ skipn (S index) ws.
Proof.
  unfold removeExercise. rewrite filter_index_spec by lia.
  rewrite Nat.sub_0_r. reflexivity.
Qed.

(** X1.  [removeExercise] drops the entry at [index] and nothing else; an index
    past the end drops nothing; the entries that stay keep their arrays in
    step; and removing the entry [addExercise] has just appended gives the
    previous list back. *)
Theorem removeExercise_drops_one (index : nat) (st : form) :
  let ws := workoutExercises st in
  removeExercise index ws = firstn index ws ++ skipn (S index) ws /\
  length (removeExercise index ws)
  = (if Nat.ltb index (length ws) then pred (length ws) else length ws) /\
  (forall j, (j < index)%nat ->
             nth_error (removeExercise index ws) j = nth_error ws j) /\
  (forall j, (index <= j)%nat ->
             nth_error (removeExercise index ws) j = nth_error ws (S j)) /\
  (Forall well_formed ws -> Forall well_formed (removeExercise index ws)) /\
  (forall exercise,
      removeExercise (length ws) (workoutExercises (addExercise exercise st)) = ws).
Proof.
  intros ws. rewrite removeExercise_eq. split; [reflexivity|]. split; [|split; [|split; [|split]]].
  - rewrite length_app, length_firstn, length_skipn.
    destruct (Nat.ltb index (length ws)) eqn:E.
    + apply Nat.ltb_lt in E. lia.
    + apply Nat.ltb_ge in E. lia.
  - intros j Hj. destruct (Nat.lt_ge_cases index (length ws)) as [L|L].
    + rewrite nth_error_app1 by (rewrite length_firstn; lia).
      rewrite nth_error_firstn.
      replace (Nat.ltb j index) with true by (symmetry; apply Nat.ltb_lt; lia).
      reflexivity.
    + rewrite firstn_all2 by lia. rewrite skipn_all2 by lia.
      rewrite app_nil_r. reflexivity.
  - intros j Hj. destruct (Nat.lt_ge_cases index (length ws)) as [L|L].
    + rewrite nth_error_app2 by (rewrite length_firstn; lia).
      rewrite length_firstn, nth_error_skipn.
      f_equal. lia.
    + rewrite firstn_all2 by lia. rewrite skipn_all2 by lia.
      rewrite app_nil_r.
      rewrite (proj2 (nth_error_None ws j)) by lia.
      rewrite (proj2 (nth_error_None ws (S j))) by lia. reflexivity.
  - intros H. rewrite <- removeExercise_eq. apply Forall_filter_index. exact H.
  - intros exercise. rewrite removeExercise_eq.
    change (workoutExercises (addExercise exercise st))
      with (ws ++ [newWorkoutExercise exercise]).
    rewrite firstn_app, Nat.sub_diag, firstn_all. simpl firstn.
    rewrite skipn_all2 by (rewrite length_app; simpl; lia).
    rewrite !app_nil_r. reflexivity.
Qed.


Lemma put_same (ws : list WorkoutExercise) (i : nat) (e : WorkoutExercise) :
  nth_error ws i = Some e -> put ws i e = ws.
Proof.
  revert i. induction ws as [|hd tl IH]; intros [|i] H; simpl in *;
    try discriminate.
  - injection H as ->. reflexivity.
  - rewrite IH by exact H. reflexivity.
Qed.

Lemma put_put (ws : list WorkoutExercise) (i : nat) (a b : WorkoutExercise) :
  put (put ws i a) i b = put ws i b.
Proof.
  revert i. induction ws as [|hd tl IH]; intros [|i]; simpl; auto.
  rewrite IH. reflexivity.
Qed.

Lemma pop_push (arr : jsarray) (v : number) : pop (push arr v) = arr.
Proof. unfold pop, push. apply removelast_last. Qed.

Lemma removeSet_entry_addSet_entry (e : WorkoutExercise) :
  removeSet_entry (addSet_entry e) = e.
Proof.
  destruct e as [i ei en s r w rs n]. unfold removeSet_entry, addSet_entry.
  cbn [we_id exercise_id exercise_name sets reps weight rest_seconds notes].
  rewrite !pop_push. f_equal. lia.
Qed.

(** X2.  "Add Set" followed by "Remove Set" on the same entry gives the list
    back, provided the entry had at least one set. *)
Theorem removeSet_undoes_addSet (i : nat) (ws : list WorkoutExercise)
        (e : WorkoutExercise) :
  nth_error ws i = Some e -> 1 <= sets e ->
  exists ws', addSet i ws = Some ws' /\ removeSet i ws' = Some ws.
Proof.
  intros E H. exists (put ws i (addSet_entry e)). split.
  - unfold addSet. rewrite E. reflexivity.
  - unfold removeSet. rewrite (nth_error_put_same ws i e _ E).
    replace (1 <? sets (addSet_entry e)) with true
      by (symmetry; apply Z.ltb_lt; simpl; lia).
    rewrite put_put, removeSet_entry_addSet_entry, put_same by exact E.
    reflexivity.
Qed.

Lemma get_replace_at_same (arr : jsarray) (j : nat) (v : number) :
  (j < length arr)%nat -> get (replace_at arr j v) j = Some v.
Proof.
  unfold get. revert j. induction arr as [|hd tl IH]; intros [|j] H; simpl in *;
    try lia; [reflexivity|]. apply IH. lia.
Qed.

Lemma get_replace_at_other (arr : jsarray) (j k : nat) (v : number) :
  k <> j -> get (replace_at arr j v) k = get arr k.
Proof.
  unfold get. revert j k. induction arr as [|hd tl IH]; intros [|j] [|k] H;
    simpl; try reflexivity; try congruence.
  apply IH. congruence.
Qed.

(** What is written at an index is read back there, also past the end. *)
Lemma get_set_index_same (arr : jsarray) (j : nat) (v : number) :
  get (set_index arr j v) j = Some v.
Proof.
  unfold set_index. destruct (Nat.ltb j (length arr)) eqn:E.
  - apply Nat.ltb_lt in E. apply get_replace_at_same. exact E.
  - apply Nat.ltb_ge in E. unfold get.
    rewrite nth_error_app2 by lia.
    rewrite nth_error_app2 by (rewrite repeat_length; lia).
    rewrite repeat_length. replace (j - length arr - (j - length arr))%nat with 0%nat by lia.
    reflexivity.
Qed.

(** Every other index reads as before; a hole reads as nothing. *)
Lemma get_set_index_other (arr : jsarray) (j k : nat) (v : number) :
  k <> j -> get (set_index arr j v) k = get arr k.
Proof.
  intros H. unfold set_index. destruct (Nat.ltb j (length arr)) eqn:E.
  - apply get_replace_at_other. exact H.
  - apply Nat.ltb_ge in E. unfold get.
    destruct (Nat.lt_ge_cases k (length arr)) as [L|L].
    + rewrite nth_error_app1 by lia. reflexivity.
    + rewrite (proj2 (nth_error_None arr k)) by lia.
      rewrite nth_error_app2 by lia.
      destruct (Nat.lt_ge_cases (k - length arr) (j - length arr)) as [L'|L'].
      * rewrite nth_error_app1 by (rewrite repeat_length; lia).
        rewrite nth_error_repeat by lia. reflexivity.
      * rewrite nth_error_app2 by (rewrite repeat_length; lia).
        rewrite repeat_length.
        destruct (k - length arr - (j - length arr))%nat as [|n] eqn:D; [lia|].
        simpl. destruct n; reflexivity.
Qed.

(** X3.  After [updateSetData] the addressed set of the addressed array holds
    the new value; every other set of that array, the other array, [sets]
    and every other entry are as before. *)
Theorem updateSetData_writes_one_cell (i j : nat) (f : field) (v : number)
        (ws : list WorkoutExercise) (e : WorkoutExercise) :
  nth_error ws i = Some e ->
  exists ws' e',
    updateSetData i j f v ws = Some ws' /\
    nth_error ws' i = Some e' /\
    get (array_of f e') j = Some v /\
    (forall k, k <> j -> get (array_of f e') k = get (array_of f e) k) /\
    array_of (other f) e' = array_of (other f) e /\
    sets e' = sets e /\
    (forall i', i' <> i -> nth_error ws' i' = nth_error ws i').
Proof.
  intros E. unfold updateSetData. rewrite E. destruct f.
  - exists (put ws i (with_reps e (set_index (reps e) j v))),
           (with_reps e (set_index (reps e) j v)).
    split; [reflexivity|]. split; [apply (nth_error_put_same ws i e _ E)|].
    split; [apply get_set_index_same|].
    split; [intros k Hk; apply get_set_index_other; exact Hk|].
    split; [reflexivity|]. split; [reflexivity|].
    intros i' Hi. apply nth_error_put_other. congruence.
  - exists (put ws i (with_weight e (set_index (weight e) j v))),
           (with_weight e (set_index (weight e) j v)).
    split; [reflexivity|]. split; [apply (nth_error_put_same ws i e _ E)|].
    split; [apply get_set_index_same|].
    split; [intros k Hk; apply get_set_index_other; exact Hk|].
    split; [reflexivity|]. split; [reflexivity|].
    intros i' Hi. apply nth_error_put_other. congruence.
Qed.

Lemma removeExercise_drops_one_witness :
  Forall well_formed
    (removeExercise 0
       (workoutExercises
          (addExercise deadlift (addExercise pushups (empty_form "2025-09-15"))))).
Proof.
  destruct (removeExercise_drops_one 0
              (addExercise deadlift (addExercise pushups (empty_form "2025-09-15"))))
    as (_ & _ & _ & _ & H & _).
  apply H. simpl.
  constructor; [apply newWorkoutExercise_well_formed|].
  constructor; [apply newWorkoutExercise_well_formed|]. constructor.
Defined.

Lemma removeSet_undoes_addSet_witness :
  exists ws', addSet 0 [twelve_reps] = Some ws' /\
              removeSet 0 ws' = Some [twelve_reps].
Proof.
  apply (removeSet_undoes_addSet 0 [twelve_reps] twelve_reps);
    [reflexivity | simpl; lia].
Defined.

Lemma updateSetData_writes_one_cell_witness :
  exists ws' e',
    updateSetData 0 1 Weight (lit 25) [twelve_reps] = Some ws' /\
    nth_error ws' 0 = Some e' /\
    get (weight e') 1 = Some (lit 25) /\
    reps e' = reps twelve_reps.
Proof.
  destruct (updateSetData_writes_one_cell 0 1 Weight (lit 25) [twelve_reps]
              twelve_reps eq_refl)
    as (ws' & e' & H1 & H2 & H3 & _ & H5 & _).
  exists ws', e'. split; [exact H1|]. split; [exact H2|].
  split; [exact H3 | exact H5].
Defined.

End FormMoreFacts.

(* ================================================================== *)
(** * More properties of saving a workout *)
(* ================================================================== *)

Section SaveMoreFacts.
Import Js Proc WorkoutForm Sample.

Lemma is_empty_trimStart (s : string) :
  is_empty (trimStart s) = all_whitespace s.
Proof.
  induction s as [|c s IH]; simpl; [reflexivity|].
  destruct (is_whitespace c); [exact IH | reflexivity].
Qed.

Lemma all_whitespace_trimStart (s : string) :
  all_whitespace (trimStart s) = all_whitespace s.
Proof.
  induction s as [|c s IH]; simpl; [reflexivity|].
  destruct (is_whitespace c) eqn:E; [exact IH|]. simpl. rewrite E. reflexivity.
Qed.

Lemma all_whitespace_reverse_onto (s acc : string) :
  all_whitespace (reverse_onto s acc) = all_whitespace s && all_whitespace acc.
Proof.
  revert acc. induction s as [|c s IH]; intros acc; simpl; [reflexivity|].
  rewrite IH. simpl. 
  destruct (is_whitespace c), (all_whitespace s), (all_whitespace acc); reflexivity.
Qed.

Lemma is_empty_reverse_onto (s acc : string) :
  is_empty (reverse_onto s acc) = is_empty s && is_empty acc.
Proof.
  revert acc. induction s as [|c s IH]; intros acc; simpl; [reflexivity|].
  rewrite IH. simpl. apply andb_false_r.
Qed.

(** [!name.trim()] holds exactly for a name of white space only. *)
Lemma blank_iff_all_whitespace (s : string) :
  is_empty (trim s) = all_whitespace s.
Proof.
  unfold trim, reverse. rewrite is_empty_reverse_onto, andb_true_r.
  rewrite is_empty_trimStart, all_whitespace_reverse_onto, andb_true_r.
  apply all_whitespace_trimStart.
Qed.

Ltac served H Eout :=
  unfold Store.serve at 1 in Eout; rewrite H in Eout;
  cbn -[fields_of exerciseInserts] in Eout.

(** The five ways a save in update mode can go. *)
Lemma handleSave_update_cases rejects gen (w : Store.workout_row)
      (user : Store.uuid) (st : form) (d : Store.db) :
  let U := Store.UpdateWorkout (Store.id w) (fields_of st) in
  let D := Store.DeleteWorkoutExercises (Store.id w) in
  let I := Store.InsertWorkoutExercises
             (exerciseInserts (Store.id w) (workoutExercises st)) in
  let out := run (Store.serve rejects gen) (handleSave (Some w) user st) d in
  let no := Store.failed "rejected" in
  all_whitespace (f_name st) = false ->
  (rejects U = true /\
   out = (Did (SetLoading true) :: Sent U no :: failure_tail, d)) \/
  (rejects U = false /\ rejects D = true /\
   out = (Did (SetLoading true) :: Sent U Store.ok :: Sent D no :: failure_tail,
          after gen U d)) \/
  (rejects U = false /\ rejects D = false /\ workoutExercises st <> [] /\
   rejects I = true /\
   out = (Did (SetLoading true) :: Sent U Store.ok :: Sent D Store.ok
            :: Sent I no :: failure_tail,
          after gen D (after gen U d))) \/
  (rejects U = false /\ rejects D = false /\ workoutExercises st <> [] /\
   rejects I = false /\
   out = (Did (SetLoading true) :: Sent U Store.ok :: Sent D Store.ok
            :: Sent I Store.ok :: success_tail,
          after gen I (after gen D (after gen U d)))) \/
  (rejects U = false /\ rejects D = false /\ workoutExercises st = [] /\
   out = (Did (SetLoading true) :: Sent U Store.ok :: Sent D Store.ok
            :: success_tail,
          after gen D (after gen U d))).
Proof.
  intros U D I out no Hname. rewrite <- blank_iff_all_whitespace in Hname.
  assert (Eout : out = run (Store.serve rejects gen)
                           (handleSave (Some w) user st) d) by reflexivity.
  clearbody out. subst U D I no.
  unfold handleSave, insert_exercises in Eout. rewrite Hname in Eout.
  cbn [run] in Eout.
  destruct (rejects (Store.UpdateWorkout _ _)) eqn:HU.
  { left. split; [reflexivity|]. served HU Eout. rewrite Eout; reflexivity. }
  right. served HU Eout.
  destruct (rejects (Store.DeleteWorkoutExercises _)) eqn:HD.
  { left. split; [reflexivity|]. split; [reflexivity|].
    served HD Eout. rewrite Eout; reflexivity. }
  right. served HD Eout.
  destruct (workoutExercises st) as [|e ws] eqn:Ews.
  { right. right. repeat split. rewrite Eout; reflexivity. }
  cbn -[fields_of exerciseInserts] in Eout.
  destruct (rejects (Store.InsertWorkoutExercises _)) eqn:HI.
  { left. split; [reflexivity|]. split; [reflexivity|]. split; [discriminate|].
    split; [reflexivity|]. served HI Eout. rewrite Eout; reflexivity. }
  right. left. split; [reflexivity|]. split; [reflexivity|]. split; [discriminate|].
  split; [reflexivity|]. served HI Eout. rewrite Eout; reflexivity.
Qed.


(** The four ways a save of a new workout can go. *)
Lemma handleSave_create_cases rejects gen (user : Store.uuid) (st : form)
      (d : Store.db) :
  let C := Store.InsertWorkout user (fields_of st) in
  let new := Store.mkWorkout (gen d) user (fields_of st) in
  let I := Store.InsertWorkoutExercises
             (exerciseInserts (gen d) (workoutExercises st)) in
  let out := run (Store.serve rejects gen) (handleSave None user st) d in
  let no := Store.failed "rejected" in
  let created := Store.mkResponse (Some new) None in
  all_whitespace (f_name st) = false ->
  (rejects C = true /\
   out = (Did (SetLoading true) :: Sent C no :: failure_tail, d)) \/
  (rejects C = false /\ workoutExercises st <> [] /\ rejects I = true /\
   out = (Did (SetLoading true) :: Sent C created :: Sent I no :: failure_tail,
          after gen C d)) \/
  (rejects C = false /\ workoutExercises st <> [] /\ rejects I = false /\
   out = (Did (SetLoading true) :: Sent C created :: Sent I Store.ok
            :: success_tail,
          after gen I (after gen C d))) \/
  (rejects C = false /\ workoutExercises st = [] /\
   out = (Did (SetLoading true) :: Sent C created :: success_tail,
          after gen C d)).
Proof.
  intros C new I out no created Hname.
  rewrite <- blank_iff_all_whitespace in Hname.
  assert (Eout : out = run (Store.serve rejects gen)
                           (handleSave None user st) d) by reflexivity.
  clearbody out. subst C new I no created.
  unfold handleSave, insert_exercises in Eout. rewrite Hname in Eout.
  cbn [run] in Eout.
  destruct (rejects (Store.InsertWorkout _ _)) eqn:HC.
  { left. split; [reflexivity|]. served HC Eout. rewrite Eout; reflexivity. }
  right. served HC Eout.
  destruct (workoutExercises st) as [|e ws] eqn:Ews.
  { right. right. repeat split. rewrite Eout; reflexivity. }
  cbn -[fields_of exerciseInserts] in Eout.
  destruct (rejects (Store.InsertWorkoutExercises _)) eqn:HI.
  { left. split; [reflexivity|]. split; [discriminate|].
    split; [reflexivity|]. served HI Eout. rewrite Eout; reflexivity. }
  right. left. split; [reflexivity|]. split; [discriminate|].
  split; [reflexivity|]. served HI Eout. rewrite Eout; reflexivity.
Qed.

Lemma handleSave_blank rejects gen workout (user : Store.uuid) (st : form)
      (d : Store.db) :
  all_whitespace (f_name st) = true ->
  run (Store.serve rejects gen) (handleSave workout user st) d
  = ([Did (Alert "Please enter a workout name")], d).
Proof.
  intros H. rewrite <- blank_iff_all_whitespace in H.
  unfold handleSave. rewrite H. reflexivity.
Qed.

(** ** Rows of one workout among the exercise rows *)

Lemma rows_of_inserts (w : Store.uuid) (ws : list WorkoutExercise) :
  filter (fun r => String.eqb (Store.workout_id r) w) (exerciseInserts w ws)
  = exerciseInserts w ws.
Proof.
  induction ws as [|e ws IH]; simpl; [reflexivity|].
  rewrite String.eqb_refl, IH. reflexivity.
Qed.

Lemma rows_of_inserts_other (w w' : Store.uuid) (ws : list WorkoutExercise) :
  w' <> w ->
  filter (fun r => String.eqb (Store.workout_id r) w') (exerciseInserts w ws) = [].
Proof.
  intros H. induction ws as [|e ws IH]; simpl; [reflexivity|].
  replace (String.eqb w w') with false
    by (symmetry; apply String.eqb_neq; congruence).
  exact IH.
Qed.

Lemma rows_of_delete_other (w w' : Store.uuid) (l : list Store.workout_exercise_row) :
  w' <> w ->
  filter (fun r => String.eqb (Store.workout_id r) w')
         (filter (fun r => negb (String.eqb (Store.workout_id r) w)) l)
  = filter (fun r => String.eqb (Store.workout_id r) w') l.
Proof.
  intros H. induction l as [|r l IH]; simpl; [reflexivity|].
  destruct (String.eqb (Store.workout_id r) w) eqn:E; simpl.
  - apply String.eqb_eq in E.
    replace (String.eqb (Store.workout_id r) w') with false
      by (symmetry; apply String.eqb_neq; congruence).
    exact IH.
  - rewrite IH. reflexivity.
Qed.

(** What each write does to the rows of a workout [w']. *)
Lemma rows_of_after gen (q : Store.request) (d : Store.db) (w' : Store.uuid) :
  Store.rows_of w' (after gen q d) =
  match q with
  | Store.UpdateWorkout _ _ | Store.InsertWorkout _ _ => Store.rows_of w' d
  | Store.DeleteWorkoutExercises w =>
      if String.eqb w w' then [] else Store.rows_of w' d
  | Store.InsertWorkoutExercises rows =>
      Store.rows_of w' d
      ++ filter (fun r => String.eqb (Store.workout_id r) w') rows
  end.
Proof.
  unfold after, Store.rows_of. destruct q as [w f|w|u f|rows]; simpl;
    try reflexivity.
  - destruct (String.eqb w w') eqn:E.
    + apply String.eqb_eq in E. subst. apply rows_of_after_delete.
    + apply String.eqb_neq in E. apply rows_of_delete_other. congruence.
  - apply filter_app.
Qed.



(** The store and the page after a save in edit mode that is accepted. *)
Lemma handleSave_update_accepted rejects gen (w : Store.workout_row)
        (user : Store.uuid) (st : form) (d : Store.db) :
  all_whitespace (f_name st) = false ->
  (forall q, rejects q = false) ->
  let out := run (Store.serve rejects gen) (handleSave (Some w) user st) d in
  Store.rows_of (Store.id w) (snd out)
  = exerciseInserts (Store.id w) (workoutExercises st) /\
  Store.workouts (snd out)
  = map (fun r => if String.eqb (Store.id r) (Store.id w)
                  then Store.mkWorkout (Store.id r) (Store.user_id r) (fields_of st)
                  else r) (Store.workouts d) /\
  effects (fst out) = [SetLoading true; OnSave; SetLoading false].
Proof.
  intros B Ok out. unfold out.
  pose proof (handleSave_update_cases rejects gen w user st d B) as Cs.
  cbv zeta in Cs.
  destruct Cs as [(R & _)|[(_ & R & _)|[(_ & _ & _ & R & _)|
                 [(_ & _ & _ & _ & E)|(_ & _ & Ews & E)]]]];
    try (rewrite Ok in R; discriminate R); rewrite E; cbn [fst snd].
  - rewrite !rows_of_after, String.eqb_refl, rows_of_inserts.
    split; [reflexivity|]. split; reflexivity.
  - rewrite !rows_of_after, String.eqb_refl, Ews.
    split; [reflexivity|]. split; reflexivity.
Qed.

(** X5.  A save in edit mode that the store accepts replaces the exercise rows
    of the workout by exactly the rows of the form, writes the form's
    fields to the workout, and reports success. *)
Theorem handleSave_update_replaces_rows rejects gen (w : Store.workout_row)
        (user : Store.uuid) (st : form) (d : Store.db) :
  all_whitespace (f_name st) = false ->
  (forall q, rejects q = false) ->
  let out := run (Store.serve rejects gen) (handleSave (Some w) user st) d in
  Store.rows_of (Store.id w) (snd out)
  = exerciseInserts (Store.id w) (workoutExercises st) /\
  Store.workouts (snd out)
  = map (fun r => if String.eqb (Store.id r) (Store.id w)
                  then Store.mkWorkout (Store.id r) (Store.user_id r) (fields_of st)
                  else r) (Store.workouts d) /\
  effects (fst out) = [SetLoading true; OnSave; SetLoading false].
Proof.
  intros B Ok. exact (handleSave_update_accepted rejects gen w user st d B Ok).
Qed.

(** X6.  Whatever the store accepts or rejects, a save never changes the
    exercise rows of another workout than the one it saves. *)
Theorem handleSave_keeps_other_workouts_rows rejects gen
        (workout : option Store.workout_row) (user : Store.uuid) (st : form)
        (d : Store.db) (w' : Store.uuid) :
  w' <> match workout with Some w => Store.id w | None => gen d end ->
  Store.rows_of w'
    (snd (run (Store.serve rejects gen) (handleSave workout user st) d))
  = Store.rows_of w' d.
Proof.
  intros Hw. destruct (all_whitespace (f_name st)) eqn:B.
  { rewrite (handleSave_blank _ _ _ _ _ _ B). reflexivity. }
  destruct workout as [w|].
  - assert (N : String.eqb (Store.id w) w' = false)
      by (apply String.eqb_neq; congruence).
    pose proof (handleSave_update_cases rejects gen w user st d B) as Cs.
    cbv zeta in Cs.
    destruct Cs as [(_ & E)|[(_ & _ & E)|[(_ & _ & _ & _ & E)|
                   [(_ & _ & _ & _ & E)|(_ & _ & _ & E)]]]];
      rewrite E; cbn [snd]; rewrite ?rows_of_after, ?N;
      rewrite ?rows_of_inserts_other by exact Hw;
      rewrite ?app_nil_r; reflexivity.
  - pose proof (handleSave_create_cases rejects gen user st d B) as Cs.
    cbv zeta in Cs.
    destruct Cs as [(_ & E)|[(_ & _ & _ & E)|[(_ & _ & _ & E)|(_ & _ & E)]]];
      rewrite E; cbn [snd]; rewrite ?rows_of_after;
      rewrite ?rows_of_inserts_other by exact Hw;
      rewrite ?app_nil_r; reflexivity.
Qed.


(** X7.  A save with a name reports success ([onSave]) exactly when the store
    rejected none of its requests, shows the error alert exactly when one
    was rejected, and always ends by switching the loading flag off. *)
Theorem handleSave_reports_success_iff_accepted rejects gen
        (workout : option Store.workout_row) (user : Store.uuid) (st : form)
        (d : Store.db) :
  all_whitespace (f_name st) = false ->
  let out := run (Store.serve rejects gen) (handleSave workout user st) d in
  (In OnSave (effects (fst out)) <->
   forall q, In q (requests (fst out)) -> rejects q = false) /\
  (In (Alert "Error saving workout. Please try again.") (effects (fst out)) <->
   exists q, In q (requests (fst out)) /\ rejects q = true) /\
  last (effects (fst out)) (SetLoading true) = SetLoading false.
Proof.
  intros B out. unfold out.
  assert (Cs :
    exists tr d',
      run (Store.serve rejects gen) (handleSave workout user st) d = (tr, d') /\
      ((exists acc q,
           requests tr = acc ++ [q] /\ rejects q = true /\
           (forall a, In a acc -> rejects a = false) /\
           effects tr = [SetLoading true; ConsoleError "Error saving workout:";
                         Alert "Error saving workout. Please try again.";
                         SetLoading false]) \/
       ((forall q, In q (requests tr) -> rejects q = false) /\
        effects tr = [SetLoading true; OnSave; SetLoading false]))).
  { destruct workout as [w|].
    - pose proof (handleSave_update_cases rejects gen w user st d B) as Cs.
      cbv zeta in Cs.
      destruct Cs as [(R1 & E)|[(R1 & R2 & E)|[(R1 & R2 & _ & R3 & E)|
                     [(R1 & R2 & _ & R3 & E)|(R1 & R2 & _ & E)]]]];
        rewrite E; eexists; eexists; (split; [reflexivity|]).
      + left. exists [], (Store.UpdateWorkout (Store.id w) (fields_of st)).
        repeat split; auto. intros a [].
      + left. exists [Store.UpdateWorkout (Store.id w) (fields_of st)],
                     (Store.DeleteWorkoutExercises (Store.id w)).
        repeat split; auto. intros a [<-|[]]. exact R1.
      + left. exists [Store.UpdateWorkout (Store.id w) (fields_of st);
                      Store.DeleteWorkoutExercises (Store.id w)],
                     (Store.InsertWorkoutExercises
                        (exerciseInserts (Store.id w) (workoutExercises st))).
        repeat split; auto. intros a [<-|[<-|[]]]; assumption.
      + right. split; [|reflexivity]. intros q [<-|[<-|[<-|[]]]]; assumption.
      + right. split; [|reflexivity]. intros q [<-|[<-|[]]]; assumption.
    - pose proof (handleSave_create_cases rejects gen user st d B) as Cs.
      cbv zeta in Cs.
      destruct Cs as [(R1 & E)|[(R1 & _ & R2 & E)|[(R1 & _ & R2 & E)|(R1 & _ & E)]]];
        rewrite E; eexists; eexists; (split; [reflexivity|]).
      + left. exists [], (Store.InsertWorkout user (fields_of st)).
        repeat split; auto. intros a [].
      + left. exists [Store.InsertWorkout user (fields_of st)],
                     (Store.InsertWorkoutExercises
                        (exerciseInserts (gen d) (workoutExercises st))).
        repeat split; auto. intros a [<-|[]]. exact R1.
      + right. split; [|reflexivity]. intros q [<-|[<-|[]]]; assumption.
      + right. split; [|reflexivity]. intros q [<-|[]]; assumption. }
  destruct Cs as (tr & d' & E & [(acc & q & Hreq & Rq & Hacc & Heff)|(Hall & Heff)]);
    rewrite E; cbn [fst]; rewrite Heff.
  - split; [|split; [|reflexivity]].
    + split.
      * intros [H|[H|[H|[H|[]]]]]; discriminate H.
      * intros H. rewrite (H q) in Rq; [discriminate Rq|].
        rewrite Hreq. apply in_or_app. right. left. reflexivity.
    + split.
      * intros _. exists q. split; [|exact Rq].
        rewrite Hreq. apply in_or_app. right. left. reflexivity.
      * intros _. right. right. left. reflexivity.
  - split; [|split; [|reflexivity]].
    + split; [intros _; exact Hall | intros _; right; left; reflexivity].
    + split.
      * intros [H|[H|[H|[]]]]; discriminate H.
      * intros (q & Hq & Rq). rewrite (Hall q Hq) in Rq. discriminate Rq.
Qed.

(** X8.  Saving a new workout.  If the insert of the workout is rejected the
    store is as before.  Once it is accepted the workout row stays, also
    when the insert of its exercise rows is rejected afterwards: the new
    workout is then left without exercises and nothing removes it.  When
    both are accepted the rows of the form are appended under the new id. *)
Theorem handleSave_create_outcomes rejects gen (user : Store.uuid) (st : form)
        (d : Store.db) :
  all_whitespace (f_name st) = false ->
  let C := Store.InsertWorkout user (fields_of st) in
  let new := Store.mkWorkout (gen d) user (fields_of st) in
  let I := Store.InsertWorkoutExercises
             (exerciseInserts (gen d) (workoutExercises st)) in
  let out := run (Store.serve rejects gen) (handleSave None user st) d in
  (rejects C = true -> snd out = d /\ requests (fst out) = [C]) /\
  (rejects C = false -> Store.workouts (snd out) = Store.workouts d ++ [new]) /\
  (rejects C = false -> workoutExercises st <> [] -> rejects I = true ->
   Store.workout_exercises (snd out) = Store.workout_exercises d /\
   requests (fst out) = [C; I] /\ ~ In OnSave (effects (fst out))) /\
  (rejects C = false -> rejects I = false ->
   Store.workout_exercises (snd out)
   = Store.workout_exercises d ++ exerciseInserts (gen d) (workoutExercises st)).
Proof.
  intros B C new I out. unfold out.
  pose proof (handleSave_create_cases rejects gen user st d B) as Cs.
  cbv zeta in Cs. fold C I in Cs.
  destruct Cs as [(R1 & E)|[(R1 & N & R2 & E)|[(R1 & N & R2 & E)|(R1 & N & E)]]];
    rewrite E; cbn [fst snd]; repeat split;
    try (intros; congruence); try reflexivity.
  - intros [K|[K|[K|[K|[]]]]]; discriminate K.
  - intros _ _. unfold after. simpl. rewrite N. simpl. symmetry. apply app_nil_r.
Qed.


Lemma handleSave_update_replaces_rows_witness :
  Store.rows_of "w-1"
    (snd (run (Store.serve accepts_all next_uuid)
              (handleSave (Some leg_day) "u-1" editing) stored))
  = exerciseInserts "w-1" [twelve_reps].
Proof.
  exact (proj1 (handleSave_update_replaces_rows accepts_all next_uuid leg_day
                  "u-1" editing stored eq_refl (fun q => eq_refl))).
Defined.

Lemma handleSave_keeps_other_workouts_rows_witness :
  Store.rows_of "w-2"
    (snd (run (Store.serve rejects_exercise_inserts next_uuid)
              (handleSave (Some leg_day) "u-1" editing) stored))
  = Store.rows_of "w-2" stored.
Proof.
  apply (handleSave_keeps_other_workouts_rows rejects_exercise_inserts next_uuid
           (Some leg_day) "u-1" editing stored "w-2").
  discriminate.
Defined.

Lemma handleSave_reports_success_iff_accepted_witness :
  In OnSave
     (effects (fst (run (Store.serve accepts_all next_uuid)
                        (handleSave (Some leg_day) "u-1" editing) stored))).
Proof.
  apply (proj2 (proj1 (handleSave_reports_success_iff_accepted accepts_all
                         next_uuid (Some leg_day) "u-1" editing stored eq_refl))).
  intros q _. reflexivity.
Defined.

Lemma handleSave_create_outcomes_witness :
  Store.workouts
    (snd (run (Store.serve rejects_exercise_inserts next_uuid)
              (handleSave None "u-1" editing) stored))
  = [leg_day; Store.mkWorkout "w-new" "u-1" (fields_of editing)].
Proof.
  apply (proj1 (proj2 (handleSave_create_outcomes rejects_exercise_inserts
                         next_uuid "u-1" editing stored eq_refl))).
  reflexivity.
Defined.

End SaveMoreFacts.

(* ================================================================== *)
(** * More properties of the exercise picker *)
(* ================================================================== *)

Section PickerMoreFacts.
Import Js Proc WorkoutForm Sample.

Lemma append_assoc' (a b c : string) :
  ((a ++ b) ++ c)%string = (a ++ b ++ c)%string.
Proof. induction a as [|x a IH]; simpl; [reflexivity|]. rewrite IH. reflexivity. Qed.

Lemma contains_trans (s t u : string) :
  contains s t -> contains t u -> contains s u.
Proof.
  intros (pre & post & ->) (pre' & post' & ->).
  exists (pre ++ pre')%string, (post' ++ post)%string.
  rewrite !append_assoc'. reflexivity.
Qed.

Lemma includes_empty (s : string) : includes s EmptyString = true.
Proof. destruct s; reflexivity. Qed.

Lemma filter_all {A} (f : A -> bool) (l : list A) :
  (forall x, f x = true) -> filter f l = l.
Proof.
  intros H. induction l as [|x l IH]; simpl; [reflexivity|].
  rewrite H, IH. reflexivity.
Qed.

Lemma ascii_toLowerCase_append (a b : string) :
  ascii_toLowerCase (a ++ b)
  = (ascii_toLowerCase a ++ ascii_toLowerCase b)%string.
Proof. induction a as [|x a IH]; simpl; [reflexivity|]. rewrite IH. reflexivity. Qed.

(** X9.  With an empty search term the picker lists the whole catalog, in
    catalog order; this is the state [addExercise] leaves the picker in,
    closed. *)
Theorem picker_lists_catalog_on_empty_term
        (toLowerCase : string -> string) (st : form) :
  toLowerCase EmptyString = EmptyString ->
  (searchTerm st = EmptyString ->
   filteredExercises toLowerCase st = exercises st) /\
  (forall exercise,
      filteredExercises toLowerCase (addExercise exercise st) = exercises st /\
      showExerciseSelector (addExercise exercise st) = false).
Proof.
  intros L.
  assert (A : forall s, searchTerm s = EmptyString ->
                        filteredExercises toLowerCase s = exercises s).
  { intros s E. unfold filteredExercises. apply filter_all. intros e.
    unfold matches. rewrite E, L, includes_empty. reflexivity. }
  split; [apply A|]. intros exercise. split; [|reflexivity].
  rewrite A by reflexivity. reflexivity.
Qed.

(** X10.  A search term whose lower-cased form contains the lower-cased form of
    another lists no exercise the other does not list: typing on only
    narrows the list. *)
Theorem picker_longer_term_narrows
        (toLowerCase : string -> string) (st : form) (t1 t2 : string) :
  contains (toLowerCase t2) (toLowerCase t1) ->
  incl (filteredExercises toLowerCase (setSearchTerm t2 st))
       (filteredExercises toLowerCase (setSearchTerm t1 st)).
Proof.
  intros H e. unfold filteredExercises, matches. cbn [searchTerm exercises setSearchTerm].
  rewrite !filter_In, !orb_true_iff, !includes_spec.
  intros (Hin & [Hn|Hc]); (split; [exact Hin|]).
  - left. eapply contains_trans; eauto.
  - right. eapply contains_trans; eauto.
Qed.

Lemma picker_lists_catalog_on_empty_term_witness :
  filteredExercises ascii_toLowerCase (addExercise pushups editing)
  = [pushups; deadlift].
Proof.
  exact (proj1 (proj2 (picker_lists_catalog_on_empty_term ascii_toLowerCase
                         editing eq_refl) pushups)).
Defined.

Lemma picker_longer_term_narrows_witness :
  incl (filteredExercises ascii_toLowerCase (setSearchTerm "Dead" editing))
       (filteredExercises ascii_toLowerCase (setSearchTerm "de" editing)).
Proof.
  apply picker_longer_term_narrows. exists EmptyString, "ad". reflexivity.
Defined.

End PickerMoreFacts.

(* ================================================================== *)
(** * Opening a saved workout *)
(* ================================================================== *)

Section ReopenFacts.
Import Js Proc WorkoutForm Sample.

Lemma or_empty_some (s : string) : or_empty (Some s) = s.
Proof. destruct s; reflexivity. Qed.

Lemma reopened_inserts row_id name_of (w : Store.uuid) (ws : list WorkoutExercise) :
  Forall2 same_sets
    (formattedExercises
       (Some (map (fun r =>
                     mkFetchedExercise (row_id r) (Store.exercise_id r)
                       (name_of (Store.exercise_id r)) (Store.sets r)
                       (Some (Store.reps r)) (Some (Store.weight r))
                       (Store.rest_seconds r) (Some (Store.we_notes r)))
                  (exerciseInserts w ws))))
    ws.
Proof.
  induction ws as [|e ws IH]; cbn -[or_empty]; constructor; [|exact IH].
  unfold same_sets. cbn -[or_empty]. rewrite or_empty_some. repeat split.
Qed.

Lemma same_sets_well_formed (l1 l2 : list WorkoutExercise) :
  Forall2 same_sets l1 l2 -> Forall well_formed l2 -> Forall well_formed l1.
Proof.
  induction 1 as [|a b la lb Hab _ IH]; intros H; [constructor|].
  inversion H; subst. constructor; [|apply IH; assumption].
  destruct Hab as (_ & Hs & Hr & Hw & _).
  unfold well_formed in *. rewrite Hs, Hr, Hw. assumption.
Qed.

(** X11.  Saving a workout in edit mode and opening it again gives the form the
    entries it had, one for one and in order, with the same exercise, set
    count, reps, weights, rest and notes; entries whose arrays were in step
    with [sets] still are. *)
Theorem reopen_saved_workout rejects gen row_id name_of
        (w : Store.workout_row) (user : Store.uuid) (st : form) (d : Store.db) :
  all_whitespace (f_name st) = false ->
  (forall q, rejects q = false) ->
  let d' := snd (run (Store.serve rejects gen) (handleSave (Some w) user st) d) in
  exists reopened,
    effects (fst (run (select_exercises row_id name_of)
                      (loadWorkoutExercises (Some w)) d'))
    = [Loaded reopened] /\
    Forall2 same_sets reopened (workoutExercises st) /\
    (Forall well_formed (workoutExercises st) -> Forall well_formed reopened).
Proof.
  intros B Ok d'.
  destruct (handleSave_update_accepted rejects gen w user st d B Ok)
    as (Hrows & _). fold d' in Hrows.
  eexists. split; [|split].
  - unfold loadWorkoutExercises. cbn [run select_exercises ex_error ex_data effects].
    rewrite Hrows. reflexivity.
  - apply reopened_inserts.
  - apply same_sets_well_formed. apply reopened_inserts.
Qed.

Lemma reopen_saved_workout_witness :
  exists reopened,
    effects (fst (run (select_exercises row_uuid catalog_name)
                      (loadWorkoutExercises (Some leg_day))
                      (snd (run (Store.serve accepts_all next_uuid)
                                (handleSave (Some leg_day) "u-1" editing) stored))))
    = [Loaded reopened] /\
    Forall2 same_sets reopened [twelve_reps].
Proof.
  destruct (reopen_saved_workout accepts_all next_uuid row_uuid catalog_name
              leg_day "u-1" editing stored eq_refl (fun q => eq_refl))
    as (r & H1 & H2 & _).
  exists r. split; [exact H1 | exact H2].
Defined.

End ReopenFacts.

(* ================================================================== *)
(** * More properties of goal progress *)
(* ================================================================== *)

Section GoalsMoreFacts.
Import Js Goals.

(** X12.  With a zero target the progress is decided by the current value alone:
    [NaN] when it is falsy ([0], [-0], [NaN]), and otherwise 100 or
    [-Infinity], as the signs of the two values agree or differ. *)
Theorem getProgress_zero_target_all_cases (g : Goal) (s : bool) :
  target_value g = S754_zero s ->
  getProgress g =
    if truthy (current_value g)
    then (if xorb (is_negative (current_value g)) s
          then NegInfinity else lit 100)
    else S754_nan.
Proof.
  destruct g as [t c a]. cbn [target_value current_value]. intros ->.
  unfold getProgress. cbn [target_value current_value]. rewrite lit_100.
  destruct c as [sc|sc| |sc m e]; try reflexivity;
    destruct sc, s; reflexivity.
Qed.

(** X13.  A goal whose current value is zero, with a target that is not zero and
    not [NaN], shows zero progress. *)
Theorem getProgress_zero_current (g : Goal) :
  is_zero (current_value g) = true ->
  truthy (target_value g) = true ->
  is_zero (getProgress g) = true.
Proof.
  destruct g as [t c a]. cbn [target_value current_value]. intros Hc Ht.
  unfold getProgress. cbn [target_value current_value]. rewrite lit_100.
  destruct c as [sc|sc| |sc m e]; try discriminate Hc.
  destruct t as [st|st| |st mt et]; try discriminate Ht;
    destruct sc, st; reflexivity.
Qed.

Lemma getProgress_zero_target_all_cases_witness :
  getProgress (goal_of (lit (-5)) (lit 0)) = NegInfinity.
Proof.
  exact (getProgress_zero_target_all_cases (goal_of (lit (-5)) (lit 0)) false
           eq_refl).
Defined.

Lemma getProgress_zero_current_witness :
  is_zero (getProgress (goal_of (lit 0) (lit 200))) = true.
Proof.
  apply getProgress_zero_current; vm_compute; reflexivity.
Defined.

End GoalsMoreFacts.

(* ================================================================== *)
(** * Properties of the goal handlers *)
(* ================================================================== *)

Section GoalsViewFacts.
Import Js Proc GoalsView.

Variable rejects : request -> bool.
Variable gen : list GoalRow -> uuid.
Variable clock : list GoalRow -> string.
Variable order : list GoalRow -> list GoalRow.

Lemma map_unchanged (f : GoalRow -> GoalRow) (g : uuid) (t : list GoalRow) :
  (forall r, In r t -> id r = g -> f r = r) ->
  map (fun r => if String.eqb (id r) g then f r else r) t = t.
Proof.
  intros H. induction t as [|r t IH]; simpl; [reflexivity|].
  rewrite IH by (intros r' Hr; apply H; right; exact Hr).
  destruct (String.eqb (id r) g) eqn:E; [|reflexivity].
  apply String.eqb_eq in E. rewrite (H r (or_introl eq_refl) E). reflexivity.
Qed.

Lemma or_null_or_empty (d : option string) :
  d <> Some EmptyString -> or_null (or_empty d) = d.
Proof. destruct d as [[|c r]|]; simpl; congruence. Qed.

(** A reload leaves the table and the form cells alone, ends with the
    loading flag off, and replaces the list only if the select went
    through. *)
Lemma perform_loadGoals (user : uuid) (st : state) (t : list GoalRow) :
  perform rejects gen clock order (loadGoals user) st t
  = (mkState (if rejects (SelectGoals user) then goals st
              else order (filter (fun r => String.eqb (user_id r) user) t))
             false (showForm st) (editingGoal st) (formData st)
             (if rejects (SelectGoals user)
              then console st ++ ["Error loading goals:"] else console st),
     t).
Proof.
  unfold perform, loadGoals. cbn [run]. unfold serve.
  destruct (rejects (SelectGoals user)); reflexivity.
Qed.

(** A handler that awaits one write and, if it went through, goes on with
    [k]. *)
Lemma perform_write (q : request) (msg : string) (k : handler)
      (st : state) (t : list GoalRow) :
  perform rejects gen clock order
    (Await q (fun r => match error r with
                       | Some e => Emit (ConsoleError msg) Done
                       | None => k
                       end)) st t
  = if rejects q
    then (apply_effect st (ConsoleError msg), t)
    else perform rejects gen clock order k st
                 (snd (apply gen clock order q t)).
Proof.
  unfold perform. cbn [run]. unfold serve at 1.
  destruct (rejects q); [reflexivity|].
  destruct q; cbn [apply error snd];
    destruct (run _ k _) as [tr t']; reflexivity.
Qed.


Lemma perform_emit (e : effect) (k : handler) (st : state) (t : list GoalRow) :
  perform rejects gen clock order (Emit e k) st t
  = perform rejects gen clock order k (apply_effect st e) t.
Proof.
  unfold perform. cbn [run]. destruct (run _ k t) as [tr t']. reflexivity.
Qed.

Lemma sent_write (q : request) (msg : string) (k : handler) (t : list GoalRow) :
  sent rejects gen clock order
    (Await q (fun r => match error r with
                       | Some e => Emit (ConsoleError msg) Done
                       | None => k
                       end)) t
  = if rejects q then [q]
    else q :: sent rejects gen clock order k (snd (apply gen clock order q t)).
Proof.
  unfold sent. cbn [run]. unfold serve at 1.
  destruct (rejects q); [reflexivity|].
  destruct q; cbn [apply error snd];
    destruct (run _ k _) as [tr t']; reflexivity.
Qed.

Lemma sent_emit (e : effect) (k : handler) (t : list GoalRow) :
  sent rejects gen clock order (Emit e k) t = sent rejects gen clock order k t.
Proof.
  unfold sent. cbn [run]. destruct (run _ k t) as [tr t']. reflexivity.
Qed.

Lemma sent_loadGoals (user : uuid) (t : list GoalRow) :
  sent rejects gen clock order (loadGoals user) t = [SelectGoals user].
Proof.
  unfold sent, loadGoals. cbn [run]. unfold serve.
  destruct (rejects (SelectGoals user)); reflexivity.
Qed.

Lemma perform_submitted (user : uuid) (st : state) (t : list GoalRow) :
  perform rejects gen clock order (submitted user) st t
  = (mkState (if rejects (SelectGoals user) then goals st
              else order (filter (fun r => String.eqb (user_id r) user) t))
             false false None blank_form
             (if rejects (SelectGoals user)
              then console st ++ ["Error loading goals:"] else console st),
     t).
Proof.
  unfold submitted. rewrite !perform_emit, perform_loadGoals. reflexivity.
Qed.

(** X14.  Opening a goal for editing and submitting the form as it is leaves
    the stored goals as they were, and closes and clears the form. *)
Theorem goals_edit_without_change (user : uuid) (g : GoalRow) (st : state)
        (t : list GoalRow) :
  (forall r, In r t -> id r = id g -> r = g) ->
  target_date g <> Some EmptyString ->
  rejects (UpdateGoal (id g) (fields_of (formData (startEdit g st)))) = false ->
  let out := perform rejects gen clock order
                     (handleSubmit user (startEdit g st)) (startEdit g st) t in
  snd out = t /\
  showForm (fst out) = false /\ editingGoal (fst out) = None /\
  formData (fst out) = blank_form.
Proof.
  intros Hrow Hdate Hok out. unfold out, handleSubmit.
  change (editingGoal (startEdit g st)) with (Some g). cbv beta iota.
  rewrite perform_write, Hok, perform_submitted. cbn [fst snd apply].
  split; [|repeat split].
  apply map_unchanged. intros r Hin Hid. rewrite (Hrow r Hin Hid).
  unfold with_fields, fields_of, startEdit. cbn.
  rewrite or_null_or_empty by exact Hdate. destruct g; reflexivity.
Qed.

(** X15.  Toggling the achieved flag of a goal and toggling it again on the
    reloaded goal gives the stored goals back; in between, the stored goal
    carries the flipped flag. *)
Theorem goals_toggle_twice (user : uuid) (g : GoalRow) (st st' : state)
        (t : list GoalRow) :
  (forall r, In r t -> id r = id g -> r = g) ->
  rejects (UpdateAchieved (id g) (negb (achieved g))) = false ->
  rejects (UpdateAchieved (id g) (achieved g)) = false ->
  let g' := with_achieved g (negb (achieved g)) in
  let t1 := snd (perform rejects gen clock order (toggleAchieved user g) st t) in
  let t2 := snd (perform rejects gen clock order (toggleAchieved user g') st' t1) in
  (forall r, In r t1 <-> exists r0, In r0 t /\
                          r = if String.eqb (id r0) (id g) then g' else r0) /\
  t2 = t.
Proof.
  intros Hrow H1 H2 g' t1 t2.
  assert (E1 : t1 = map (fun r => if String.eqb (id r) (id g)
                                  then with_achieved r (negb (achieved g))
                                  else r) t).
  { unfold t1, toggleAchieved. rewrite perform_write, H1, perform_loadGoals.
    reflexivity. }
  assert (E2 : t2 = map (fun r => if String.eqb (id r) (id g)
                                  then with_achieved r (achieved g)
                                  else r) t1).
  { unfold t2, toggleAchieved.
    change (id g') with (id g).
    change (negb (achieved g')) with (negb (negb (achieved g))).
    rewrite negb_involutive, perform_write, H2, perform_loadGoals.
    reflexivity. }
  split.
  - intros r. rewrite E1, in_map_iff. split.
    + intros (r0 & <- & Hin). exists r0. split; [exact Hin|].
      destruct (String.eqb (id r0) (id g)) eqn:E; [|reflexivity].
      apply String.eqb_eq in E. rewrite (Hrow r0 Hin E). reflexivity.
    + intros (r0 & Hin & ->). exists r0. split; [|exact Hin].
      destruct (String.eqb (id r0) (id g)) eqn:E; [|reflexivity].
      apply String.eqb_eq in E. rewrite (Hrow r0 Hin E). reflexivity.
  - rewrite E2, E1, map_map. rewrite <- (map_id t) at 2.
    apply map_ext_in. intros r Hin.
    destruct (String.eqb (id r) (id g)) eqn:E.
    + cbn [id with_achieved]. rewrite E.
      apply String.eqb_eq in E. rewrite (Hrow r Hin E).
      destruct g; reflexivity.
    + rewrite E. reflexivity.
Qed.

(** X16.  Deleting a goal.  Declined in the dialog, nothing is sent and nothing
    changes.  Confirmed and accepted, exactly the rows with that id leave
    the table and the list is reloaded; if the reload goes through, the
    goal is no longer listed.  Confirmed and rejected, table and list stay
    and the list is not reloaded. *)
Theorem goals_delete_outcomes (user goalId : uuid) (st : state)
        (t : list GoalRow) :
  (perform rejects gen clock order (handleDelete user goalId false) st t = (st, t) /\
   sent rejects gen clock order (handleDelete user goalId false) t = []) /\
  (rejects (DeleteGoal goalId) = false ->
   let out := perform rejects gen clock order (handleDelete user goalId true) st t in
   snd out = filter (fun r => negb (String.eqb (id r) goalId)) t /\
   sent rejects gen clock order (handleDelete user goalId true) t
   = [DeleteGoal goalId; SelectGoals user] /\
   (rejects (SelectGoals user) = false ->
    (forall l r, In r (order l) -> In r l) ->
    forall r, In r (goals (fst out)) -> id r <> goalId)) /\
  (rejects (DeleteGoal goalId) = true ->
   let out := perform rejects gen clock order (handleDelete user goalId true) st t in
   snd out = t /\ goals (fst out) = goals st /\
   console (fst out) = console st ++ ["Error deleting goal:"] /\
   sent rejects gen clock order (handleDelete user goalId true) t
   = [DeleteGoal goalId]).
Proof.
  split; [split; reflexivity|]. split.
  - intros Hok out. unfold out, handleDelete. cbn [negb].
    rewrite perform_write, Hok, perform_loadGoals. cbn [fst snd apply goals].
    split; [reflexivity|]. split.
    + rewrite sent_write, Hok, sent_loadGoals. reflexivity.
    + intros Hsel Hord r Hin. rewrite Hsel in Hin. apply Hord in Hin.
      apply filter_In in Hin. destruct Hin as (Hin & _).
      apply filter_In in Hin. destruct Hin as (_ & Hne).
      apply negb_true_iff, String.eqb_neq in Hne. exact Hne.
  - intros Hno out. unfold out, handleDelete. cbn [negb].
    rewrite perform_write, Hno. cbn [fst snd].
    repeat split. rewrite sent_write, Hno. reflexivity.
Qed.

(** X17.  Submitting the form for a new goal.  Accepted, the table gains one row
    with the values of the form, not achieved, an empty date stored as
    [null]; the rows that were there stay; the form closes and the list is
    reloaded.  Rejected, table, list and form stay as they are and only
    the console gets a line. *)
Theorem goals_submit_new_goal (user : uuid) (st : state) (t : list GoalRow) :
  editingGoal st = None ->
  let q := InsertGoal user (fields_of (formData st)) in
  let out := perform rejects gen clock order (handleSubmit user st) st t in
  (rejects q = false ->
   snd out = t ++ [mkGoalRow (gen t) user (fd_type (formData st))
                             (fd_target_value (formData st))
                             (fd_current_value (formData st))
                             (or_null (fd_target_date (formData st)))
                             false (clock t)] /\
   showForm (fst out) = false /\ formData (fst out) = blank_form /\
   sent rejects gen clock order (handleSubmit user st) t = [q; SelectGoals user]) /\
  (rejects q = true ->
   snd out = t /\
   fst out = apply_effect st (ConsoleError "Error saving goal:") /\
   sent rejects gen clock order (handleSubmit user st) t = [q]).
Proof.
  intros Hnew q out. unfold out, q, handleSubmit. rewrite Hnew. split.
  - intros Hok. rewrite perform_write, Hok, perform_submitted.
    cbn [fst snd apply showForm formData]. repeat split.
    rewrite sent_write, Hok. unfold submitted.
    rewrite !sent_emit, sent_loadGoals. reflexivity.
  - intros Hno. rewrite perform_write, Hno. cbn [fst snd]. repeat split.
    rewrite sent_write, Hno. reflexivity.
Qed.

End GoalsViewFacts.

Section GoalsViewExamples.
Import Js Proc GoalsView Sample.

Lemma bench_goal_is_stored (r : GoalRow) :
  In r goal_table -> id r = id bench_goal -> r = bench_goal.
Proof.
  intros [<-|[<-|[]]] H; [reflexivity | discriminate H].
Qed.

Lemma goals_edit_without_change_witness :
  snd (perform goals_accepted goal_uuid goal_clock goals_in_table_order
               (handleSubmit "u-1" (startEdit bench_goal initial))
               (startEdit bench_goal initial) goal_table)
  = goal_table.
Proof.
  apply (goals_edit_without_change goals_accepted goal_uuid goal_clock
           goals_in_table_order "u-1" bench_goal initial goal_table).
  - exact bench_goal_is_stored.
  - discriminate.
  - reflexivity.
Defined.

Lemma goals_toggle_twice_witness :
  snd (perform goals_accepted goal_uuid goal_clock goals_in_table_order
         (toggleAchieved "u-1" (with_achieved bench_goal true)) initial
         (snd (perform goals_accepted goal_uuid goal_clock goals_in_table_order
                       (toggleAchieved "u-1" bench_goal) initial goal_table)))
  = goal_table.
Proof.
  apply (proj2 (goals_toggle_twice goals_accepted goal_uuid goal_clock
                  goals_in_table_order "u-1" bench_goal initial initial
                  goal_table bench_goal_is_stored eq_refl eq_refl)).
Defined.

Lemma goals_delete_outcomes_witness :
  snd (perform goals_accepted goal_uuid goal_clock goals_in_table_order
               (handleDelete "u-1" "g-1" true) initial goal_table)
  = [run_goal].
Proof.
  apply (proj1 (proj2 (goals_delete_outcomes goals_accepted goal_uuid goal_clock
                         goals_in_table_order "u-1" "g-1" initial goal_table))).
  reflexivity.
Defined.

Lemma goals_submit_new_goal_witness :
  snd (perform goals_accepted goal_uuid goal_clock goals_in_table_order
               (handleSubmit "u-1" squat_form) squat_form goal_table)
  = goal_table ++ [mkGoalRow "g-new" "u-1" "Squat" (lit 120) (lit 60) None false
                             "2025-09-15T12:00:00Z"].
Proof.
  apply (proj1 (goals_submit_new_goal goals_accepted goal_uuid goal_clock
                  goals_in_table_order "u-1" squat_form goal_table eq_refl)).
  reflexivity.
Defined.

End GoalsViewExamples.

(* ================================================================== *)
(** * More properties of the dashboard *)
(* ================================================================== *)

Section DashboardMoreFacts.
Import Proc Date Dashboard.

Lemma len_filter_le {A} (f : A -> bool) (l : list A) :
  len (filter f l) <= len l.
Proof.
  unfold len. apply inj_le. induction l as [|x l IH]; simpl; [lia|].
  destruct (f x); simpl; lia.
Qed.

Lemma sum_of_nonneg (l : list Z) : Forall (fun x => 0 <= x) l -> 0 <= sum_of l.
Proof. induction 1; simpl; lia. Qed.

(** X18.  Whatever was fetched, the weekly count lies between 0 and the total
    count, no count is negative, and the total of minutes is not negative
    when no stored duration is. *)
Theorem compute_stats_bounds (LocalTZA : Z -> bool -> Z) (now : Z)
        (workouts : option (list Workout)) (goals : option (list Goals.Goal)) :
  let s := compute_stats LocalTZA now workouts goals in
  0 <= weeklyWorkouts s <= totalWorkouts s /\
  0 <= activeGoals s /\
  ((forall W, workouts = Some W -> Forall (fun w => 0 <= minutes w) W) ->
   0 <= totalMinutes s).
Proof.
  intros s. unfold s, compute_stats.
  cbn [weeklyWorkouts totalWorkouts activeGoals totalMinutes].
  split; [|split].
  - unfold weekly, count. destruct workouts as [W|]; cbn [or0 option_map]; [|lia].
    pose proof (len_filter_le (in_week LocalTZA now) W). unfold len in *. lia.
  - unfold count. destruct goals as [G|]; cbn [or0 option_map]; unfold len; lia.
  - intros H. destruct workouts as [W|]; [|cbn; lia].
    rewrite sum_minutes_is_sum. apply sum_of_nonneg.
    specialize (H W eq_refl). induction H; simpl; constructor; auto.
Qed.

(** X19.  A workout dated today, on one of the five days before, or in the
    future is always counted as weekly, in every time zone (offsets are
    less than a day); east of Greenwich and in UTC the sixth day before
    is counted as well. *)
Theorem weekly_counts_recent_days (LocalTZA : Z -> bool -> Z) (now : Z)
        (w : Workout) (day : Z) :
  parse (date w) = Some (MakeDate day 0) ->
  let today := Day (LocalTime LocalTZA now) in
  let offset := LocalTZA (LocalTime LocalTZA now - 7 * msPerDay) false in
  (- msPerDay < offset -> today - 5 <= day -> in_week LocalTZA now w = true) /\
  (0 <= offset -> today - 6 <= day -> in_week LocalTZA now w = true).
Proof.
  intros Hp today offset.
  assert (L : LocalTime LocalTZA now
              = msPerDay * today + TimeWithinDay (LocalTime LocalTZA now))
    by (apply Z.div_mod; discriminate).
  assert (T : 0 <= TimeWithinDay (LocalTime LocalTZA now) < msPerDay)
    by (apply Z.mod_pos_bound; reflexivity).
  split; intros Hoff Hday; apply in_week_iff; exists (MakeDate day 0);
    (split; [exact Hp|]); unfold UTC, MakeDate; fold offset;
    unfold msPerDay in *; lia.
Qed.

(** X20.  Every load ends with the loading flag off, and the console is left
    untouched exactly when the three fetches went through. *)
Theorem load_always_finishes (LocalTZA : Z -> bool -> Z)
        (answer : query -> response) (user : uuid) (now : Z) (st : state) :
  let st' := load LocalTZA answer user now st in
  loading st' = false /\
  (console st' = console st <->
   error (answer (SelectWorkouts user)) = None /\
   error (answer (SelectActiveGoals user)) = None /\
   error (answer (SelectRecentWorkouts user)) = None) /\
  (console st' = console st \/ console st' = logged st).
Proof.
  intros st'. unfold st'.
  assert (N : logged st <> console st).
  { unfold logged. intros H. apply (f_equal (@length string)) in H.
    rewrite length_app in H. simpl in H. lia. }
  destruct (error (answer (SelectWorkouts user))) as [e1|] eqn:H1.
  { rewrite (load_workouts_failed _ _ _ _ _ e1 H1). cbn [loading console].
    split; [reflexivity|]. split; [|right; reflexivity].
    split; [intros H; contradiction | intros (H & _); discriminate H]. }
  destruct (error (answer (SelectActiveGoals user))) as [e2|] eqn:H2.
  { rewrite (load_goals_failed _ _ _ _ _ e2 H1 H2). cbn [loading console].
    split; [reflexivity|]. split; [|right; reflexivity].
    split; [intros H; contradiction | intros (_ & H & _); discriminate H]. }
  destruct (error (answer (SelectRecentWorkouts user))) as [e3|] eqn:H3.
  { rewrite (load_recent_failed _ _ _ _ _ e3 H1 H2 H3). cbn [loading console].
    split; [reflexivity|]. split; [|right; reflexivity].
    split; [intros H; contradiction | intros (_ & _ & H); discriminate H]. }
  rewrite (load_succeeded _ _ _ _ _ H1 H2 H3). cbn [loading console].
  split; [reflexivity|]. split; [|left; reflexivity].
  split; [intros _; repeat split | reflexivity].
Qed.

Lemma compute_stats_bounds_witness :
  0 <= totalMinutes (compute_stats Sample.utc Sample.monday_noon
                                   (Some Sample.fetched) (Some [])).
Proof.
  apply (proj2 (proj2 (compute_stats_bounds Sample.utc Sample.monday_noon
                         (Some Sample.fetched) (Some [])))).
  intros W E. injection E as <-.
  repeat constructor; vm_compute; discriminate.
Defined.

Lemma weekly_counts_recent_days_witness :
  in_week Sample.utc Sample.monday_noon (Sample.workout_on "2025-09-12" 45) = true.
Proof.
  apply (proj1 (weekly_counts_recent_days Sample.utc Sample.monday_noon
                  (Sample.workout_on "2025-09-12" 45) 20343 eq_refl)).
  - vm_compute. reflexivity.
  - vm_compute. discriminate.
Defined.

End DashboardMoreFacts.

(* ================================================================== *)
(** * Properties of the workout list *)
(* ================================================================== *)

Section WorkoutsFacts.
Import Proc Workouts.

Variable rejects : request -> bool.
Variable order : list FetchedWorkout -> list FetchedWorkout.
Variable row_id : Store.workout_exercise_row -> uuid.

Lemma perform_loadWorkouts (user : uuid) (st : state) (d : Store.db) :
  perform rejects order row_id (loadWorkouts user) st d
  = (mkState (if rejects (SelectWorkouts user) then workouts st
              else formattedWorkouts
                     (Some (order (map (fetched row_id d)
                        (filter (fun r => String.eqb (Store.user_id r) user)
                                (Store.workouts d))))))
             false (showForm st) (editingWorkout st)
             (if rejects (SelectWorkouts user)
              then console st ++ ["Error loading workouts:"] else console st),
     d).
Proof.
  unfold perform, loadWorkouts. cbn [run]. unfold serve.
  destruct (rejects (SelectWorkouts user)); reflexivity.
Qed.

Lemma sent_loadWorkouts (user : uuid) (d : Store.db) :
  sent rejects order row_id (loadWorkouts user) d = [SelectWorkouts user].
Proof.
  unfold sent, loadWorkouts. cbn [run]. unfold serve.
  destruct (rejects (SelectWorkouts user)); reflexivity.
Qed.

(** X21.  Deleting a workout from the list.  Declined in the dialog, nothing is
    sent.  Confirmed and accepted, the workout and, by the cascade, all
    its exercise rows are gone, the rows of every other workout are
    untouched, and the list is reloaded.  Confirmed and rejected, store
    and list stay as they are and the list is not reloaded. *)
Theorem handleDeleteWorkout_outcomes (user workoutId : uuid) (st : state)
        (d : Store.db) :
  (perform rejects order row_id (handleDeleteWorkout user workoutId false) st d
   = (st, d) /\
   sent rejects order row_id (handleDeleteWorkout user workoutId false) d = []) /\
  (rejects (DeleteWorkout workoutId) = false ->
   let d' := snd (perform rejects order row_id
                          (handleDeleteWorkout user workoutId true) st d) in
   (forall r, In r (Store.workouts d') <->
              In r (Store.workouts d) /\ Store.id r <> workoutId) /\
   Store.rows_of workoutId d' = [] /\
   (forall w, w <> workoutId -> Store.rows_of w d' = Store.rows_of w d) /\
   sent rejects order row_id (handleDeleteWorkout user workoutId true) d
   = [DeleteWorkout workoutId; SelectWorkouts user]) /\
  (rejects (DeleteWorkout workoutId) = true ->
   perform rejects order row_id (handleDeleteWorkout user workoutId true) st d
   = (apply_effect st (ConsoleError "Error deleting workout:"), d) /\
   sent rejects order row_id (handleDeleteWorkout user workoutId true) d
   = [DeleteWorkout workoutId]).
Proof.
  split; [split; reflexivity|]. split.
  - intros Hok.
    assert (E : perform rejects order row_id
                  (handleDeleteWorkout user workoutId true) st d
                = perform rejects order row_id (loadWorkouts user) st
                    (snd (apply order row_id (DeleteWorkout workoutId) d))).
    { unfold perform, handleDeleteWorkout. cbn [negb run].
      unfold serve at 1. rewrite Hok. cbn [apply error].
      destruct (run _ (loadWorkouts user) _) as [tr t']. reflexivity. }
    rewrite E, perform_loadWorkouts. cbn [snd apply Store.workouts].
    split; [|split; [|split]].
    + intros r. rewrite filter_In, negb_true_iff, String.eqb_neq. reflexivity.
    + unfold Store.rows_of. cbn [Store.workout_exercises].
      apply rows_of_after_delete.
    + intros w Hw. unfold Store.rows_of. cbn [Store.workout_exercises].
      induction (Store.workout_exercises d) as [|r l IH]; simpl; [reflexivity|].
      destruct (String.eqb (Store.workout_id r) workoutId) eqn:E1; simpl.
      * apply String.eqb_eq in E1.
        replace (String.eqb (Store.workout_id r) w) with false
          by (symmetry; apply String.eqb_neq; congruence).
        exact IH.
      * rewrite IH. reflexivity.
    + unfold sent, handleDeleteWorkout. cbn [negb run].
      unfold serve at 1. rewrite Hok. cbn [apply error].
      pose proof (sent_loadWorkouts user
                    (snd (apply order row_id (DeleteWorkout workoutId) d))) as S.
      unfold sent in S. cbn [apply snd] in S.
      destruct (run _ (loadWorkouts user) _) as [tr t']. cbn [fst] in *.
      cbn [requests]. rewrite S. reflexivity.
  - intros Hno. unfold perform, sent, handleDeleteWorkout. cbn [negb run].
    unfold serve. rewrite Hno. split; reflexivity.
Qed.



End WorkoutsFacts.

Section WorkoutsExamples.
Import Proc Workouts Sample.

Lemma handleDeleteWorkout_outcomes_witness :
  Store.rows_of "w-1"
    (snd (perform list_accepted list_in_table_order row_uuid
                  (handleDeleteWorkout "u-1" "w-1" true) initial stored))
  = [].
Proof.
  apply (proj1 (proj2 (handleDeleteWorkout_outcomes list_accepted
                         list_in_table_order row_uuid "u-1" "w-1" initial stored))).
  reflexivity.
Defined.


End WorkoutsExamples.

(* ================================================================== *)
(** * Properties of the profile view *)
(* ================================================================== *)

Section ProfileFacts.
Import Proc Profile.

Variable fails : request -> option string.
Variable clock : list ProfileRow -> string.

(** A load against a service that turns nothing down, when the user has
    one row. *)
Lemma loadProfile_found (user : uuid) (meta : option string) (st : state)
      (t : list ProfileRow) (r : ProfileRow) :
  (forall q, fails q = None) -> rows_of user t = [r] ->
  perform fails clock (loadProfile user meta) st t
  = (mkState (Some r) (or_empty (full_name r)) false (saving st) (console st)
             (alerts st), t) /\
  sent fails clock (loadProfile user meta) t = [SelectProfile user].
Proof.
  intros Ok Hr. unfold perform, sent, loadProfile. cbn [run].
  unfold serve. rewrite Ok. cbn [apply]. rewrite Hr. split; reflexivity.
Qed.

(** The same when the user has no row yet. *)
Lemma loadProfile_missing (user : uuid) (meta : option string) (st : state)
      (t : list ProfileRow) :
  (forall q, fails q = None) -> rows_of user t = [] ->
  let row := mkProfile user (Some (or_empty meta)) (clock t) (clock t) in
  perform fails clock (loadProfile user meta) st t
  = (mkState (Some row) (or_empty meta) false (saving st) (console st)
             (alerts st), t ++ [row]) /\
  sent fails clock (loadProfile user meta) t
  = [SelectProfile user; InsertProfile user (or_empty meta)].
Proof.
  intros Ok Hr row. unfold perform, sent, loadProfile. cbn [run].
  unfold serve. rewrite !Ok. cbn [apply]. rewrite Hr.
  cbn [error String.eqb Ascii.eqb Bool.eqb andb]. cbn [run]. rewrite Ok.
  cbn [apply]. rewrite Hr. cbn.
  destruct meta as [[|c s]|]; split; reflexivity.
Qed.


Lemma rows_of_app (u : uuid) (a b : list ProfileRow) :
  rows_of u (a ++ b) = rows_of u a ++ rows_of u b.
Proof. apply filter_app. Qed.

(** X23.  [loadProfile] inserts a profile only when the user has none: with a
    row in place it only reads; without one it inserts one row carrying
    the name of the sign-up metadata (or the empty name); and when the
    read fails for any other reason than a missing row it inserts nothing
    and leaves the shown profile alone. *)
Theorem loadProfile_creates_only_when_missing (user : uuid)
        (meta : option string) (st : state) (t : list ProfileRow) :
  (forall r, (forall q, fails q = None) -> rows_of user t = [r] ->
     perform fails clock (loadProfile user meta) st t
     = (mkState (Some r) (or_empty (full_name r)) false (saving st)
                (console st) (alerts st), t) /\
     sent fails clock (loadProfile user meta) t = [SelectProfile user]) /\
  ((forall q, fails q = None) -> rows_of user t = [] ->
     snd (perform fails clock (loadProfile user meta) st t)
     = t ++ [mkProfile user (Some (or_empty meta)) (clock t) (clock t)] /\
     fullName (fst (perform fails clock (loadProfile user meta) st t))
     = or_empty meta /\
     sent fails clock (loadProfile user meta) t
     = [SelectProfile user; InsertProfile user (or_empty meta)]) /\
  (forall code, fails (SelectProfile user) = Some code -> code <> "PGRST116" ->
     perform fails clock (loadProfile user meta) st t
     = (mkState (profile st) (fullName st) false (saving st)
                (console st ++ ["Error loading profile:"]) (alerts st), t) /\
     sent fails clock (loadProfile user meta) t = [SelectProfile user]).
Proof.
  split; [|split].
  - intros r Ok Hr. apply loadProfile_found; assumption.
  - intros Ok Hr.
    destruct (loadProfile_missing user meta st t Ok Hr) as (E & S).
    rewrite E, S. repeat split.
  - intros code Hf Hc. apply String.eqb_neq in Hc.
    unfold perform, sent, loadProfile. cbn [run]. unfold serve.
    rewrite Hf. cbn [error]. rewrite Hc. split; reflexivity.
Qed.

(** X24.  Loading twice creates at most one profile: after a first load the user
    has exactly one row, which the view shows, and a second load only
    reads it. *)
Theorem loadProfile_twice_creates_once (user : uuid) (meta : option string)
        (st : state) (t : list ProfileRow) :
  (forall q, fails q = None) ->
  (length (rows_of user t) <= 1)%nat ->
  let out1 := perform fails clock (loadProfile user meta) st t in
  let out2 := perform fails clock (loadProfile user meta) (fst out1) (snd out1) in
  (exists r, rows_of user (snd out1) = [r] /\
             profile (fst out1) = Some r /\
             fullName (fst out1) = or_empty (full_name r)) /\
  snd out2 = snd out1 /\ fst out2 = fst out1 /\
  sent fails clock (loadProfile user meta) (snd out1) = [SelectProfile user] /\
  (snd out1 = t \/ exists row, snd out1 = t ++ [row]).
Proof.
  intros Ok Hlen out1 out2.
  assert (H1 : exists r, rows_of user (snd out1) = [r] /\
                         fst out1 = mkState (Some r) (or_empty (full_name r)) false
                                            (saving st) (console st) (alerts st) /\
                         (snd out1 = t \/ exists row, snd out1 = t ++ [row])).
  { unfold out1. destruct (rows_of user t) as [|r [|r' l]] eqn:Hr.
    - destruct (loadProfile_missing user meta st t Ok Hr) as (E & _).
      rewrite E. cbn [fst snd]. eexists. split; [|split].
      + rewrite rows_of_app, Hr. unfold rows_of. cbn [filter id].
        rewrite String.eqb_refl. reflexivity.
      + cbn [full_name]. destruct meta as [[|c s]|]; reflexivity.
      + right. eexists. reflexivity.
    - destruct (loadProfile_found user meta st t r Ok Hr) as (E & _).
      rewrite E. cbn [fst snd]. exists r. split; [exact Hr|].
      split; [reflexivity | left; reflexivity].
    - simpl in Hlen. lia. }
  destruct H1 as (r & Hr & E1 & Ht).
  destruct (loadProfile_found user meta (fst out1) (snd out1) r Ok Hr) as (E2 & S2).
  split; [exists r; rewrite E1; repeat split; exact Hr|].
  unfold out2. rewrite E2. cbn [fst snd].
  split; [reflexivity|]. split; [rewrite E1; reflexivity|].
  split; [exact S2 | exact Ht].
Qed.

(** X25.  Saving the profile.  Accepted, the user's row carries the typed name
    and the new time stamp, every other row is as before, the shown
    profile takes the name, and one success alert is raised.  Rejected,
    table and shown profile stay and one error alert is raised.  Either
    way the saving flag ends off. *)
Theorem profile_handleSave_outcomes (user : uuid) (now : string) (st : state)
        (t : list ProfileRow) :
  let q := UpdateProfile user (fullName st) now in
  let out := perform fails clock (handleSave user now st) st t in
  (fails q = None ->
   snd out = map (fun r => if String.eqb (id r) user
                           then mkProfile (id r) (Some (fullName st))
                                          (created_at r) now
                           else r) t /\
   (forall r, In r (snd out) -> id r = user ->
              full_name r = Some (fullName st) /\ updated_at r = now) /\
   (forall r, In r (snd out) -> id r <> user -> In r t) /\
   profile (fst out)
   = option_map (fun p => with_name p (fullName st)) (profile st) /\
   alerts (fst out) = alerts st ++ ["Profile updated successfully!"] /\
   saving (fst out) = false) /\
  (forall code, fails q = Some code ->
   snd out = t /\ profile (fst out) = profile st /\
   alerts (fst out) = alerts st ++ ["Error updating profile. Please try again."] /\
   saving (fst out) = false).
Proof.
  intros q out. split.
  - intros Ok. unfold out, perform, handleSave. cbn [run]. unfold serve.
    fold q. rewrite Ok. cbn. split; [reflexivity|]. split; [|split].
    + intros r Hin Hid. apply in_map_iff in Hin. destruct Hin as (r0 & <- & _).
      destruct (String.eqb (id r0) user) eqn:E.
      * split; reflexivity.
      * apply String.eqb_neq in E. contradiction.
    + intros r Hin Hid. apply in_map_iff in Hin. destruct Hin as (r0 & <- & Hin).
      destruct (String.eqb (id r0) user) eqn:E.
      * exfalso. apply Hid. cbn. apply String.eqb_eq. exact E.
      * exact Hin.
    + repeat split.
  - intros code Hf. unfold out, perform, handleSave. cbn [run]. unfold serve.
    fold q. rewrite Hf. cbn. repeat split.
Qed.

End ProfileFacts.

Section ProfileExamples.
Import Proc Profile Sample.

Lemma loadProfile_creates_only_when_missing_witness :
  snd (perform no_failure profile_clock (loadProfile "u-1" (Some "Ada")) initial [])
  = [mkProfile "u-1" (Some "Ada") "2025-09-15T12:00:00Z" "2025-09-15T12:00:00Z"].
Proof.
  apply (proj1 (proj1 (proj2 (loadProfile_creates_only_when_missing no_failure
                                profile_clock "u-1" (Some "Ada") initial []))
                      (fun q => eq_refl) eq_refl)).
Defined.

Lemma loadProfile_twice_creates_once_witness :
  snd (perform no_failure profile_clock (loadProfile "u-1" None)
         (fst (perform no_failure profile_clock (loadProfile "u-1" None) initial []))
         (snd (perform no_failure profile_clock (loadProfile "u-1" None) initial [])))
  = snd (perform no_failure profile_clock (loadProfile "u-1" None) initial []).
Proof.
  apply (proj1 (proj2 (loadProfile_twice_creates_once no_failure profile_clock
                         "u-1" None initial [] (fun q => eq_refl) (Nat.le_0_l 1)))).
Defined.

Lemma profile_handleSave_outcomes_witness :
  snd (perform no_failure profile_clock
               (handleSave "u-1" "2025-09-15T12:00:00Z" renamed) renamed [ada])
  = [mkProfile "u-1" (Some "Ada L.") "2025-09-01T08:00:00Z" "2025-09-15T12:00:00Z"].
Proof.
  apply (proj1 (proj1 (profile_handleSave_outcomes no_failure profile_clock
                         "u-1" "2025-09-15T12:00:00Z" renamed [ada]) eq_refl)).
Defined.

End ProfileExamples.
